(** * The Empathetic Code Reviewer: a shallow embedding of [empathetic_reviewer.py]

    The file has three layers.

    - [Py]: the part of the Python runtime the program relies on: values as
      [json.load] produces them, exceptions, and the handful of dynamically
      typed operations the source applies to them ([in], [.lower()],
      iteration, [len], subscripting, f-string interpolation).
    - The class [EmpathethicCodeReviewer], method by method, under the names
      of the source.
    - [main], the command line shell, over a small model of the process
      (file system, environment, standard streams, exit code).

    A [str] is a Rocq [string]; each [ascii] stands for one code point in
    the range U+0000..U+00FF. *)

From Stdlib Require Import String Ascii List Bool Arith Lia Permutation ZArith.
From Stdlib Require Import DecimalString.
From Stdlib Require Import Floats.SpecFloat.
Import ListNotations.
Open Scope string_scope.
Set Warnings "-register-all".

(** ** The Python runtime *)

Module Py.

(** Exception classes the program raises, catches by name, or receives from
    the libraries it calls.  Every class here derives from [Exception]. *)
Inductive exn_class : Type :=
| ValueError
| TypeError
| AttributeError
| IndexError
| KeyError
| FileNotFoundError
| JSONDecodeError
| GroqError
| OtherException (name : string).

(** An exception instance: its class and the text [str(e)] yields. *)
Record exn : Type := mk_exn { exn_cls : exn_class; exn_str : string }.

Inductive result (A : Type) : Type :=
| Return (a : A)
| Raise (e : exn).
Arguments Return {A} a.
Arguments Raise {A} e.

Definition bind {A B} (c : result A) (k : A -> result B) : result B :=
  match c with
  | Return a => k a
  | Raise e => Raise e
  end.

Notation "x <- c ;; k" := (bind c (fun x => k))
  (at level 61, c at next level, right associativity).

(** [[f(x) for x in xs]]: the comprehension stops at the first exception. *)
Fixpoint comprehension {A B} (f : A -> result B) (xs : list A) : result (list B) :=
  match xs with
  | [] => Return []
  | x :: rest =>
      y <- f x ;;
      ys <- comprehension f rest ;;
      Return (y :: ys)
  end.

(** [a and b] on conditions that may raise: [b] is evaluated only when [a]
    is true. *)
Definition and_then (a b : result bool) : result bool :=
  x <- a ;; if x then b else Return false.

(** [a or b]: [b] is evaluated only when [a] is false. *)
Definition or_else (a b : result bool) : result bool :=
  x <- a ;; if x then Return true else b.

(** Values as [json.load] builds them.  A [dict] keeps its items in
    insertion order; keys are strings. *)
Inductive pyval : Type :=
| VNone
| VBool (b : bool)
| VInt (z : Z)
| VFloat (f : spec_float)
| VStr (s : string)
| VList (items : list pyval)
| VDict (items : list (string * pyval)).

(** [type(v).__name__] *)
Definition type_name (v : pyval) : string :=
  match v with
  | VNone => "NoneType"
  | VBool _ => "bool"
  | VInt _ => "int"
  | VFloat _ => "float"
  | VStr _ => "str"
  | VList _ => "list"
  | VDict _ => "dict"
  end.

(** *** [str] operations *)

(** [str.lower()] on one code point below U+0100: A-Z and the Latin-1
    capitals U+00C0..U+00DE (the multiplication sign U+00D7 apart) move up
    by 32. *)
Definition lower_char (c : ascii) : ascii :=
  let n := nat_of_ascii c in
  if (((65 <=? n) && (n <=? 90))
      || ((192 <=? n) && (n <=? 222) && negb (n =? 215)))%nat
  then ascii_of_nat (n + 32)
  else c.

Fixpoint lower (s : string) : string :=
  match s with
  | EmptyString => EmptyString
  | String c rest => String (lower_char c) (lower rest)
  end.

(** [sub in s] for two strings: [sub] occurs in [s] at some offset. *)
Fixpoint str_contains (sub s : string) : bool :=
  String.prefix sub s
  || match s with
     | EmptyString => false
     | String _ rest => str_contains sub rest
     end.

(** [str(n)] for a non-negative integer. *)
Definition str_of_nat (n : nat) : string :=
  NilZero.string_of_uint (Nat.to_uint n).

(** The characters of a string, each as a string of length one. *)
Fixpoint chars (s : string) : list string :=
  match s with
  | EmptyString => []
  | String c rest => String c EmptyString :: chars rest
  end.

(** *** Dynamically typed operations *)

Definition is_str (x : string) (v : pyval) : bool :=
  match v with
  | VStr s => String.eqb x s
  | _ => false
  end.

Fixpoint assoc (key : string) (items : list (string * pyval)) : option pyval :=
  match items with
  | [] => None
  | (k, v) :: rest => if String.eqb key k then Some v else assoc key rest
  end.

Definition has_key (key : string) (items : list (string * pyval)) : bool :=
  match assoc key items with
  | Some _ => true
  | None => false
  end.

(** [x in container] where [x] is a string: substring test on a [str],
    membership on a [list], key lookup on a [dict], [TypeError] on the
    rest. *)
Definition py_in (x : string) (container : pyval) : result bool :=
  match container with
  | VStr s => Return (str_contains x s)
  | VList items => Return (existsb (is_str x) items)
  | VDict items => Return (has_key x items)
  | v => Raise (mk_exn TypeError
                  ("argument of type '" ++ type_name v ++ "' is not iterable"))
  end.

(** [container[key]] with a string key. *)
Definition py_getitem (container : pyval) (key : string) : result pyval :=
  match container with
  | VDict items =>
      match assoc key items with
      | Some v => Return v
      | None => Raise (mk_exn KeyError ("'" ++ key ++ "'"))
      end
  | VList _ =>
      Raise (mk_exn TypeError "list indices must be integers or slices, not str")
  | VStr _ =>
      Raise (mk_exn TypeError "string indices must be integers, not 'str'")
  | v =>
      Raise (mk_exn TypeError ("'" ++ type_name v ++ "' object is not subscriptable"))
  end.

(** [v.lower()] *)
Definition py_lower (v : pyval) : result string :=
  match v with
  | VStr s => Return (lower s)
  | v => Raise (mk_exn AttributeError
                  ("'" ++ type_name v ++ "' object has no attribute 'lower'"))
  end.

(** The elements [for x in v] visits. *)
Definition py_iter (v : pyval) : result (list pyval) :=
  match v with
  | VList items => Return items
  | VStr s => Return (map VStr (chars s))
  | VDict items => Return (map (fun kv => VStr (fst kv)) items)
  | v => Raise (mk_exn TypeError ("'" ++ type_name v ++ "' object is not iterable"))
  end.

(** [len(v)] *)
Definition py_len (v : pyval) : result nat :=
  match v with
  | VList items => Return (List.length items)
  | VStr s => Return (String.length s)
  | VDict items => Return (List.length items)
  | v => Raise (mk_exn TypeError ("object of type '" ++ type_name v ++ "' has no len()"))
  end.

End Py.
Export Py.

(** ** The completion service

    [groq.Groq] is the client of a remote service.  A request carries the
    keyword arguments of [chat.completions.create]; a response carries the
    fields the program reads, [choices[i].message.content]. *)

Record chat_request : Type := mk_chat_request {
  model : string;
  messages : list (list (string * string));
  stream : bool
}.

Record chat_message : Type := mk_chat_message { content : option string }.
Record choice : Type := mk_choice { message : chat_message }.
Record chat_completion : Type := mk_chat_completion { choices : list choice }.

(** The [Groq] object: it holds the credential it was built with. *)
Record Groq : Type := mk_Groq { api_key : string }.

(** [Groq(api_key=k)]: the constructor refuses a missing credential. *)
Definition Groq_init (k : option string) : result Groq :=
  match k with
  | Some key => Return (mk_Groq key)
  | None =>
      Raise (mk_exn GroqError
        "The api_key client option must be set either by passing api_key to the client or by setting the GROQ_API_KEY environment variable")
  end.

(** [a or b] on optional strings: [a] when it is neither [None] nor empty. *)
Definition str_or (a b : option string) : option string :=
  match a with
  | Some (String _ _) => a
  | _ => b
  end.

(** ** class EmpathethicCodeReviewer *)

Record EmpathethicCodeReviewer : Type := mk_reviewer { client : Groq }.

(** [__init__(self, api_key=None)] *)
Definition __init__ (getenv : string -> option string) (api_key : option string)
  : result EmpathethicCodeReviewer :=
  c <- Groq_init (str_or api_key (getenv "GROQ_API_KEY")) ;;
  Return (mk_reviewer c).

Definition harsh_indicators : list string :=
  ["bad"; "wrong"; "terrible"; "awful"; "stupid"; "inefficient"; "don't"].

Definition neutral_indicators : list string :=
  ["could"; "might"; "consider"; "suggest"].

(** [any(indicator in text for indicator in indicators)] *)
Definition any_in (indicators : list string) (text : string) : bool :=
  existsb (fun indicator => str_contains indicator text) indicators.

Definition _analyze_comment_severity (comment : pyval) : result string :=
  comment_lower <- py_lower comment ;;
  if any_in harsh_indicators comment_lower then Return "harsh"
  else if any_in neutral_indicators comment_lower then Return "neutral"
  else Return "constructive".

Definition _get_language_from_code (code_snippet : pyval) : result string :=
  is_python <- and_then (py_in "def " code_snippet) (py_in ":" code_snippet) ;;
  if is_python then Return "Python"
  else
    is_javascript <- and_then (py_in "function" code_snippet) (py_in "{" code_snippet) ;;
    if is_javascript then Return "JavaScript"
    else
      is_java <- or_else (py_in "public class" code_snippet) (py_in "private " code_snippet) ;;
      if is_java then Return "Java"
      else Return "Python".

(** The double quote and the line feed, [chr(10)]. *)
Definition dq : string := String "034" EmptyString.
Definition nl : string := String "010" EmptyString.

Section PromptBuilder.

(** The order in which a [set] built from a list hands out its elements.
    For strings it follows their hashes, which the interpreter salts per
    process. *)
Variable set_iter : list string -> list string.

(** [str(v)] for a value that is not a [str]. *)
Variable py_repr : pyval -> string.

(** What an f-string puts in place of [{v}]. *)
Definition py_str (v : pyval) : string :=
  match v with
  | VStr s => s
  | v => py_repr v
  end.

(** [f"{i+1}. {comment}" for i, comment in enumerate(comments)], from
    index [i] on. *)
Fixpoint numbered (i : nat) (comments : list pyval) : list string :=
  match comments with
  | [] => []
  | comment :: rest =>
      (str_of_nat (i + 1) ++ ". " ++ py_str comment) :: numbered (S i) rest
  end.

(** The lines of the f-string up to the text that follows
    [Comment severity levels detected: ]. *)
Definition template_head (language count : string) : string :=
  String.concat nl [
    "You are an exceptional senior software engineer and mentor known for your ability to provide constructive, empathetic feedback that helps developers grow. Your mission is to transform direct, potentially harsh code review comments into supportive, educational guidance.";
    "";
    "**Context:**";
    "- Programming Language: " ++ language;
    "- Number of comments to transform: " ++ count;
    "- Comment severity levels detected: "
  ].

(** The lines after the severity line. *)
Definition template_tail (language_lower code original : string) : string :=
  String.concat nl [
    "";
    "";
    "**Code Under Review:**";
    "```" ++ language_lower;
    code;
    "```";
    "";
    "**Original Review Comments:**";
    original;
    "";
    "**Your Task:**";
    "Transform each comment into a well-structured analysis following this exact format for each comment:";
    "";
    "---";
    "### Analysis of Comment: " ++ dq ++ "[Original Comment]" ++ dq;
    "";
    "**Positive Rephrasing:** [Rewrite the feedback to be encouraging and supportive while maintaining technical accuracy. Start with something positive about the code, then gently introduce the improvement opportunity.]";
    "";
    "**The 'Why':** [Explain the underlying software engineering principle, performance consideration, or best practice. Make it educational and help the developer understand the deeper reasoning.]";
    "";
    "**Suggested Improvement:**";
    "```" ++ language_lower;
    "[Provide a concrete, working code example that demonstrates the recommended fix. Ensure the code is syntactically correct and represents a meaningful improvement.]";
    "```";
    "";
    "**Learn More:** [Provide a relevant link to official documentation, style guides, or authoritative resources that support this recommendation.]";
    "";
    "---";
    "";
    "**Instructions for tone adaptation:**";
    "- For harsh comments: Be extra gentle and encouraging, acknowledge what's working first";
    "- For neutral comments: Maintain supportive tone while being direct about improvements  ";
    "- For constructive comments: Enhance the existing positive tone with more detail";
    "";
    "**After analyzing all comments, add:**";
    "";
    "## Overall Assessment";
    "";
    "[Provide a holistic, encouraging summary that:";
    "1. Acknowledges the developer's effort and what they did well";
    "2. Frames the suggestions as growth opportunities";
    "3. Encourages continued learning and improvement";
    "4. Maintains an optimistic, supportive tone]";
    "";
    "**Quality Standards:**";
    "- Be specific and actionable, not generic";
    "- Ensure all code examples are syntactically correct and runnable";
    "- Provide genuine technical insights, not just politeness";
    "- Make explanations clear for developers at different skill levels";
    "- Include relevant links to authoritative sources when possible"
  ].

Definition _create_empathetic_prompt (code_snippet comments : pyval) : result string :=
  language <- _get_language_from_code code_snippet ;;
  elements <- py_iter comments ;;
  severity_analysis <- comprehension _analyze_comment_severity elements ;;
  count <- py_len comments ;;
  enumerated <- py_iter comments ;;
  Return (template_head language (str_of_nat count)
          ++ String.concat ", " (set_iter severity_analysis)
          ++ template_tail (lower language) (py_str code_snippet)
                           (String.concat nl (numbered 0 enumerated))).

End PromptBuilder.

(** ** The process: state and effects

    Everything the program can change or observe from outside: the remote
    service behind the client, the files, the two output streams, and a
    trace of the calls made on the prompt builder and on the client. *)

Inductive call : Type :=
| Call_create_empathetic_prompt (code_snippet comments : pyval)
| Call_chat_completions_create (request : chat_request).

Section Process.

(** The state of the remote service. *)
Variable W : Type.

Record process : Type := mk_process {
  world : W;
  trace : list call;
  files : string -> option string;
  stdout : string;
  stderr : string
}.

(** A computation that may raise and may change the process. *)
Definition M (A : Type) : Type := process -> result A * process.

Definition ret {A} (a : A) : M A := fun p => (Return a, p).

Definition raise {A} (e : exn) : M A := fun p => (Raise e, p).

Definition lift {A} (r : result A) : M A := fun p => (r, p).

Definition bindM {A B} (c : M A) (k : A -> M B) : M B :=
  fun p =>
    match c p with
    | (Return a, p') => k a p'
    | (Raise e, p') => (Raise e, p')
    end.

(** [try: body  except Exception as e: handler(e)] *)
Definition try_except {A} (body : M A) (handler : exn -> M A) : M A :=
  fun p =>
    match body p with
    | (Return a, p') => (Return a, p')
    | (Raise e, p') => handler e p'
    end.

Definition record (c : call) : M unit :=
  fun p => (Return tt,
            mk_process (world p) (trace p ++ [c]) (files p) (stdout p) (stderr p)).

End Process.

Arguments mk_process {W}.
Arguments world {W}.
Arguments trace {W}.
Arguments files {W}.
Arguments stdout {W}.
Arguments stderr {W}.
Arguments ret {W A}.
Arguments raise {W A}.
Arguments lift {W A}.
Arguments bindM {W A B}.
Arguments try_except {W A}.
Arguments record {W}.

Notation "x <~ c ;; k" := (bindM c (fun x => k))
  (at level 61, c at next level, right associativity).

Section Reviewer.

Variable W : Type.

(** [client.chat.completions.create] on a request: what the service answers,
    or the exception the call raises, and the service's next state. *)
Variable chat_completions_create :
  Groq -> chat_request -> W -> result chat_completion * W.

Variable set_iter : list string -> list string.
Variable py_repr : pyval -> string.

Definition create (c : Groq) (request : chat_request) : M W chat_completion :=
  fun p =>
    let (answer, w) := chat_completions_create c request (world p) in
    (answer,
     mk_process w (trace p ++ [Call_chat_completions_create request])
                (files p) (stdout p) (stderr p)).

Definition system_content : string :=
  "You are an senior software engineer and mentor specializing in empathetic, educational code reviews. You excel at transforming harsh feedback into constructive guidance while maintaining technical accuracy.".

Definition completion_request (prompt : string) : chat_request :=
  mk_chat_request
    "openai/gpt-oss-20b"
    [ [("role", "system"); ("content", system_content)];
      [("role", "user"); ("content", prompt)] ]
    false.

(** [response.choices[0].message.content] *)
Definition first_choice_content (response : chat_completion) : result pyval :=
  match choices response with
  | [] => Raise (mk_exn IndexError "list index out of range")
  | c :: _ =>
      Return (match content (message c) with
              | Some text => VStr text
              | None => VNone
              end)
  end.

Definition error_prefix : string := "Error generating empathetic review: ".

(** The body of the [try] block of [review_code]. *)
Definition review_attempt (self : EmpathethicCodeReviewer)
           (code_snippet review_comments : pyval) : M W pyval :=
  _ <~ record (Call_create_empathetic_prompt code_snippet review_comments) ;;
  prompt <~ lift (_create_empathetic_prompt set_iter py_repr
                    code_snippet review_comments) ;;
  response <~ create (client self) (completion_request prompt) ;;
  lift (first_choice_content response).

Definition review_code (self : EmpathethicCodeReviewer)
           (code_snippet review_comments : pyval) : M W pyval :=
  try_except
    (review_attempt self code_snippet review_comments)
    (fun e => ret (VStr (error_prefix ++ exn_str e))).

(** [x not in container] *)
Definition py_not_in (x : string) (container : pyval) : result bool :=
  b <- py_in x container ;; Return (negb b).

Definition process_json_input (self : EmpathethicCodeReviewer)
           (json_data : pyval) : M W pyval :=
  missing <~ lift (or_else (py_not_in "code_snippet" json_data)
                           (py_not_in "review_comments" json_data)) ;;
  if (missing : bool) then
    raise (mk_exn ValueError
             "JSON must contain 'code_snippet' and 'review_comments' keys")
  else
    code_snippet <~ lift (py_getitem json_data "code_snippet") ;;
    review_comments <~ lift (py_getitem json_data "review_comments") ;;
    review_code self code_snippet review_comments.

End Reviewer.

Arguments review_attempt {W}.
Arguments review_code {W}.
Arguments process_json_input {W}.
Arguments create {W}.

(** ** The command line *)

(** What [argparse] hands to [main]. *)
Record args : Type := mk_args {
  input_file : string;
  output : option string
}.

(** The [files] of a process are the regular files that open and whose
    bytes decode: each maps its path to its text.  What a path without such
    a file holds instead: *)
Inductive no_text : Type :=
| Missing                (* nothing; [open] raises [FileNotFoundError] *)
| Unreachable            (* nothing, and the path runs through a regular
                            file; [open] raises [NotADirectoryError] *)
| Unreadable (e : exn).  (* something [open] or the read refuse with [e]: a
                            directory, a file without read permission, bytes
                            that do not decode ([UnicodeDecodeError]) *)

Section Main.

Variable W : Type.
Variable chat_completions_create :
  Groq -> chat_request -> W -> result chat_completion * W.
Variable set_iter : list string -> list string.
Variable py_repr : pyval -> string.

(** The parser of [json.load] on the text of a file: the value, or the
    exception it raises, a [JSONDecodeError] on text that is not JSON and
    now and then another one ([RecursionError] on deep nesting). *)
Variable json_loads : string -> pyval + exn.

(** [os.getenv], after [load_dotenv()]. *)
Variable getenv : string -> option string.

(** What a path that holds no text file holds instead. *)
Variable otherwise : string -> no_text.

(** The exception [open(path, 'w')] raises, if any: [FileNotFoundError]
    when the directory is missing, [IsADirectoryError], [PermissionError],
    [NotADirectoryError]. *)
Variable open_for_writing : string -> option exn.

(** [open(path, 'r')] and the read of the whole file that [json.load]
    starts with. *)
Definition read_file (path : string) : M W string :=
  fun p =>
    match files p path with
    | Some text => (Return text, p)
    | None =>
        (Raise match otherwise path with
               | Missing =>
                   mk_exn FileNotFoundError
                     ("[Errno 2] No such file or directory: '" ++ path ++ "'")
               | Unreachable =>
                   mk_exn (OtherException "NotADirectoryError")
                     ("[Errno 20] Not a directory: '" ++ path ++ "'")
               | Unreadable e => e
               end, p)
    end.

(** The rest of [json.load]: parsing the text. *)
Definition json_load (text : string) : result pyval :=
  match json_loads text with
  | inl v => Return v
  | inr e => Raise e
  end.

Definition set_file (path text : string) : M W unit :=
  fun p =>
    (Return tt,
     mk_process (world p) (trace p)
                (fun q => if String.eqb q path then Some text else files p q)
                (stdout p) (stderr p)).

(** How the message of a bad argument names the value's type. *)
Definition bad_argument_name (v : pyval) : string :=
  match v with
  | VNone => "None"
  | v => type_name v
  end.

(** [with open(path, 'w') as f: f.write(data)]: opening may fail and
    leaves everything as it was then; when it succeeds it empties the file;
    [write] takes a [str] only. *)
Definition write_file (path : string) (data : pyval) : M W unit :=
  match open_for_writing path with
  | Some e => raise e
  | None =>
      _ <~ set_file path EmptyString ;;
      match data with
      | VStr text => set_file path text
      | v => raise (mk_exn TypeError
                      ("write() argument must be str, not "
                       ++ bad_argument_name v))
      end
  end.

(** [print(text)] *)
Definition print (text : string) : M W unit :=
  fun p =>
    (Return tt,
     mk_process (world p) (trace p) (files p) (stdout p ++ text ++ nl) (stderr p)).

(** [print(text, file=sys.stderr)] *)
Definition print_err (text : string) : M W unit :=
  fun p =>
    (Return tt,
     mk_process (world p) (trace p) (files p) (stdout p) (stderr p ++ text ++ nl)).

(** The body of the [try] block of [main]. *)
Definition main_body (a : args) : M W unit :=
  text <~ read_file (input_file a) ;;
  input_data <~ lift (json_load text) ;;
  reviewer <~ lift (__init__ getenv None) ;;
  result <~ process_json_input chat_completions_create set_iter py_repr
              reviewer input_data ;;
  match output a with
  | Some (String c rest) =>
      _ <~ write_file (String c rest) result ;;
      print ("Empathetic review written to " ++ String c rest)
  | _ => print (py_str py_repr result)
  end.

(** [main()]: the exit status of the process and its final state.  Each
    handler ends in [sys.exit(1)]; falling off the end exits with 0. *)
Definition main (a : args) (p : process W) : Z * process W :=
  match main_body a p with
  | (Return _, p') => (0%Z, p')
  | (Raise e, p') =>
      let report :=
        match exn_cls e with
        | FileNotFoundError =>
            "Error: Input file '" ++ input_file a ++ "' not found"
        | JSONDecodeError =>
            "Error: Invalid JSON in '" ++ input_file a ++ "'"
        | _ => "Error: " ++ exn_str e
        end in
      (1%Z, snd (print_err report p'))
  end.

End Main.

Arguments main {W}.
Arguments main_body {W}.

(** ** Reference classifiers

    The two classifiers as the specification words them: by the keywords a
    text contains, with the checks taken in order. *)

(** [sub] occurs in [s]. *)
Definition occurs (sub s : string) : Prop :=
  exists before after, s = before ++ sub ++ after.

(** [text] contains at least one of [keywords]. *)
Definition mentions (keywords : list string) (text : string) : Prop :=
  exists k, In k keywords /\ occurs k text.

Definition harsh_keywords : list string :=
  ["bad"; "wrong"; "terrible"; "awful"; "stupid"; "inefficient"; "don't"].

Definition neutral_keywords : list string :=
  ["could"; "might"; "consider"; "suggest"].

(** Lower-case the comment; harsh if it contains a harsh keyword, else
    neutral if it contains a neutral keyword, else constructive. *)
Inductive classify_severity (comment : string) : string -> Prop :=
| severity_harsh :
    mentions harsh_keywords (lower comment) ->
    classify_severity comment "harsh"
| severity_neutral :
    ~ mentions harsh_keywords (lower comment) ->
    mentions neutral_keywords (lower comment) ->
    classify_severity comment "neutral"
| severity_constructive :
    ~ mentions harsh_keywords (lower comment) ->
    ~ mentions neutral_keywords (lower comment) ->
    classify_severity comment "constructive".

Definition looks_python (code : string) : Prop :=
  occurs "def " code /\ occurs ":" code.

Definition looks_javascript (code : string) : Prop :=
  occurs "function" code /\ occurs "{" code.

Definition looks_java (code : string) : Prop :=
  occurs "public class" code \/ occurs "private " code.

(** Python on ["def "] and [":"]; else JavaScript on ["function"] and
    ["{"]; else Java on ["public class"] or ["private "]; else Python. *)
Inductive classify_language (code : string) : string -> Prop :=
| language_python :
    looks_python code ->
    classify_language code "Python"
| language_javascript :
    ~ looks_python code ->
    looks_javascript code ->
    classify_language code "JavaScript"
| language_java :
    ~ looks_python code ->
    ~ looks_javascript code ->
    looks_java code ->
    classify_language code "Java"
| language_default :
    ~ looks_python code ->
    ~ looks_javascript code ->
    ~ looks_java code ->
    classify_language code "Python".

(** ** Set iteration orders, stub clients and a fresh process *)

(** What every iteration order of [set(xs)] has in common: each distinct
    element of [xs] comes out once. *)
Definition set_order_ok (set_iter : list string -> list string) : Prop :=
  forall xs, NoDup (set_iter xs) /\ forall x, In x (set_iter xs) <-> In x xs.

(** Two iteration orders, one the reverse of the other. *)
Definition one_order (xs : list string) : list string := nodup string_dec xs.

Definition other_order (xs : list string) : list string :=
  rev (nodup string_dec xs).

(** A stand-in for [str] on values that are not strings. *)
Definition repr_stub (v : pyval) : string := "<" ++ type_name v ++ ">".

(** A completion client that answers every request with one choice holding
    [text]. *)
Definition stub_client {W : Type} (text : string)
  : Groq -> chat_request -> W -> result chat_completion * W :=
  fun _ _ w => (Return (mk_chat_completion [mk_choice (mk_chat_message (Some text))]), w).

(** A completion client whose every call raises [e]. *)
Definition failing_client {W : Type} (e : exn)
  : Groq -> chat_request -> W -> result chat_completion * W :=
  fun _ _ w => (Raise e, w).

(** A process that has done nothing yet, over the given files. *)
Definition fresh (fs : string -> option string) : process unit :=
  mk_process tt [] fs EmptyString EmptyString.

Definition no_files : string -> option string := fun _ => None.

Definition a_reviewer : EmpathethicCodeReviewer := mk_reviewer (mk_Groq "key").

(** A completion client whose answer holds one choice with no content. *)
Definition silent_client {W : Type}
  : Groq -> chat_request -> W -> result chat_completion * W :=
  fun _ _ w => (Return (mk_chat_completion [mk_choice (mk_chat_message None)]), w).

(** A completion client whose answer holds no choice at all. *)
Definition empty_client {W : Type}
  : Groq -> chat_request -> W -> result chat_completion * W :=
  fun _ _ w => (Return (mk_chat_completion []), w).

(** No path holds anything but what [files] says. *)
Definition nothing_else : string -> no_text := fun _ => Missing.

(** Every path can be opened for writing. *)
Definition all_writable : string -> option exn := fun _ => None.

(** A file system holding one text file. *)
Definition one_file (name text : string) : string -> option string :=
  fun path => if String.eqb path name then Some text else None.

(** A stand-in for [json.load] that yields [v] whatever the text. *)
Definition parsed_as (v : pyval) : string -> pyval + exn :=
  fun _ => inl v.

(** An environment that defines [GROQ_API_KEY] only. *)
Definition env_with_key : string -> option string :=
  fun name => if String.eqb name "GROQ_API_KEY" then Some "key" else None.

Definition no_env : string -> option string := fun _ => None.

(** The request of the end-to-end scenario. *)
Definition a_request : pyval :=
  VDict [("code_snippet", VStr "def f(): pass");
         ("review_comments", VList [VStr "This is bad code"])].

(** What one call of [review_code] may do to the process: files and output
    streams stay as they are; the prompt builder is called; then either no
    request goes out, or exactly one, carrying the prompt that was built. *)
Definition at_most_one_request {W : Type}
           (chat_completions_create :
              Groq -> chat_request -> W -> result chat_completion * W)
           (set_iter : list string -> list string) (py_repr : pyval -> string)
           (self : EmpathethicCodeReviewer) (p p' : process W) : Prop :=
  files p' = files p /\ stdout p' = stdout p /\ stderr p' = stderr p
  /\ ((exists code_snippet review_comments,
          trace p'
          = (trace p
             ++ [Call_create_empathetic_prompt code_snippet review_comments])%list
          /\ world p' = world p)
      \/ (exists code_snippet review_comments prompt,
             _create_empathetic_prompt set_iter py_repr
               code_snippet review_comments = Return prompt
             /\ trace p'
                = (trace p
                   ++ [Call_create_empathetic_prompt code_snippet review_comments;
                       Call_chat_completions_create (completion_request prompt)])%list
             /\ world p'
                = snd (chat_completions_create (client self)
                         (completion_request prompt) (world p)))).

(** * Properties *)

(** ** Strings *)

Lemma prefix_occurs_at_start (p s : string) :
  String.prefix p s = true <-> exists rest, s = p ++ rest.
Proof.
  revert s; induction p as [|c p IH]; intros s.
  - split; [intros _; exists s; reflexivity | intros _; now destruct s].
  - destruct s as [|d s]; simpl.
    + split; [discriminate | intros [rest H]; discriminate].
    + destruct (ascii_dec c d) as [->|Hne].
      * rewrite IH. split; intros [rest H]; exists rest.
        -- now rewrite H.
        -- now inversion H.
      * split; [discriminate | intros [rest H]; inversion H; congruence].
Qed.

Lemma str_contains_occurs (sub s : string) :
  str_contains sub s = true <-> occurs sub s.
Proof.
  unfold occurs. induction s as [|c s IH].
  - cbn [str_contains]. rewrite orb_false_r, prefix_occurs_at_start. split.
    + intros [rest H]. exists EmptyString, rest. exact H.
    + intros [[|d before] [after H]]; [exists after; exact H | discriminate].
  - cbn [str_contains]. rewrite orb_true_iff, prefix_occurs_at_start, IH. split.
    + intros [[rest H] | [before [after H]]].
      * exists EmptyString, rest. exact H.
      * exists (String c before), after. simpl. now rewrite H.
    + intros [[|d before] [after H]].
      * left. exists after. exact H.
      * right. exists before, after. now inversion H.
Qed.

Lemma lower_app (a b : string) : lower (a ++ b) = lower a ++ lower b.
Proof.
  induction a as [|c a IH]; simpl; [reflexivity | now rewrite IH].
Qed.

Lemma occurs_lower (sub s : string) :
  occurs sub s -> occurs (lower sub) (lower s).
Proof.
  intros [before [after ->]].
  exists (lower before), (lower after). now rewrite !lower_app.
Qed.

Lemma any_in_mentions (keywords : list string) (text : string) :
  any_in keywords text = true <-> mentions keywords text.
Proof.
  unfold any_in, mentions. rewrite existsb_exists.
  split; intros [k [Hin H]]; exists k; split; trivial;
    now apply str_contains_occurs.
Qed.

(** The indicator words are in lower case already. *)
Lemma harsh_keywords_lower (k : string) :
  In k harsh_keywords -> lower k = k.
Proof.
  simpl. intros H.
  repeat (destruct H as [<- | H]; [reflexivity |]). contradiction.
Qed.

Lemma mentions_harsh_lower (comment : string) :
  mentions harsh_keywords comment -> mentions harsh_keywords (lower comment).
Proof.
  intros [k [Hin H]]. exists k. split; [exact Hin |].
  rewrite <- (harsh_keywords_lower k Hin). now apply occurs_lower.
Qed.

(** ** The heuristic classifiers *)

Lemma severity_unfold (comment : string) :
  _analyze_comment_severity (VStr comment) =
  Return (if any_in harsh_indicators (lower comment) then "harsh"
          else if any_in neutral_indicators (lower comment) then "neutral"
          else "constructive").
Proof.
  unfold _analyze_comment_severity. cbn [py_lower bind].
  destruct (any_in harsh_indicators (lower comment)); [reflexivity |].
  destruct (any_in neutral_indicators (lower comment)); reflexivity.
Qed.

Lemma language_unfold (code : string) :
  _get_language_from_code (VStr code) =
  Return (if str_contains "def " code && str_contains ":" code then "Python"
          else if str_contains "function" code && str_contains "{" code
               then "JavaScript"
          else if str_contains "public class" code || str_contains "private " code
               then "Java"
          else "Python").
Proof.
  unfold _get_language_from_code, and_then, or_else. cbn [py_in bind].
  destruct (str_contains "def " code), (str_contains ":" code),
    (str_contains "function" code), (str_contains "{" code),
    (str_contains "public class" code), (str_contains "private " code);
    reflexivity.
Qed.

Lemma looks_python_test (code : string) :
  str_contains "def " code && str_contains ":" code = true <-> looks_python code.
Proof.
  unfold looks_python. now rewrite andb_true_iff, !str_contains_occurs.
Qed.

Lemma looks_javascript_test (code : string) :
  str_contains "function" code && str_contains "{" code = true
  <-> looks_javascript code.
Proof.
  unfold looks_javascript. now rewrite andb_true_iff, !str_contains_occurs.
Qed.

Lemma looks_java_test (code : string) :
  str_contains "public class" code || str_contains "private " code = true
  <-> looks_java code.
Proof.
  unfold looks_java. now rewrite orb_true_iff, !str_contains_occurs.
Qed.

Lemma test_false {b : bool} {P : Prop} : (b = true <-> P) -> b = false -> ~ P.
Proof.
  intros H Hb HP. apply H in HP. congruence.
Qed.

Lemma never {P : Prop} : (false = true <-> P) -> ~ P.
Proof.
  intros H HP. apply H in HP. discriminate.
Qed.

Lemma test_true {b : bool} {P : Prop} : (b = true <-> P) -> P -> b = true.
Proof.
  intros H HP. now apply H.
Qed.

Lemma test_absent {b : bool} {P : Prop} : (b = true <-> P) -> ~ P -> b = false.
Proof.
  intros H HP. destruct b; [exfalso; apply HP; now apply H | reflexivity].
Qed.

(** C2: on every comment string the severity classifier returns the label of
    the reference definition (lower-case the comment; harsh on a harsh
    keyword, else neutral on a neutral keyword, else constructive), and no
    other.  In particular a comment with a harsh keyword, in its lower-cased
    text or as written, is harsh whatever else it contains, and a comment
    whose lower-cased text has no indicator keyword is constructive. *)
Theorem severity_follows_reference (comment : string) :
  (exists label,
      _analyze_comment_severity (VStr comment) = Return label
      /\ classify_severity comment label
      /\ forall other, classify_severity comment other -> other = label)
  /\ (mentions harsh_keywords (lower comment) ->
      _analyze_comment_severity (VStr comment) = Return "harsh")
  /\ (mentions harsh_keywords comment ->
      _analyze_comment_severity (VStr comment) = Return "harsh")
  /\ (~ mentions harsh_keywords (lower comment) ->
      ~ mentions neutral_keywords (lower comment) ->
      _analyze_comment_severity (VStr comment) = Return "constructive").
Proof.
  rewrite severity_unfold.
  pose proof (any_in_mentions harsh_indicators (lower comment)) as Hh.
  pose proof (any_in_mentions neutral_indicators (lower comment)) as Hn.
  change harsh_indicators with harsh_keywords in *.
  change neutral_indicators with neutral_keywords in *.
  repeat split.
  - destruct (any_in harsh_keywords (lower comment)) eqn:Eh;
      [| destruct (any_in neutral_keywords (lower comment)) eqn:En].
    + exists "harsh". repeat split.
      * apply severity_harsh. now apply Hh.
      * intros other Hc. destruct Hc as [H | H _ | H _]; trivial;
          exfalso; apply H; now apply Hh.
    + exists "neutral". repeat split.
      * apply severity_neutral; [exact (never Hh) | now apply Hn].
      * intros other Hc. destruct Hc as [H | _ _ | _ H]; trivial.
        -- exfalso. exact (never Hh H).
        -- exfalso. apply H. now apply Hn.
    + exists "constructive". repeat split.
      * apply severity_constructive;
          [exact (never Hh) | exact (never Hn)].
      * intros other Hc. destruct Hc as [H | _ H | _ _]; trivial.
        -- exfalso. exact (never Hh H).
        -- exfalso. exact (never Hn H).
  - intros H. now rewrite (test_true Hh H).
  - intros H. now rewrite (test_true Hh (mentions_harsh_lower _ H)).
  - intros H1 H2. now rewrite (test_absent Hh H1), (test_absent Hn H2).
Qed.

Lemma severity_follows_reference_witness :
  _analyze_comment_severity
    (VStr "This is BAD code, you might consider a rewrite")
  = Return "harsh".
Proof.
  apply (proj1 (proj2 (severity_follows_reference
           "This is BAD code, you might consider a rewrite"))).
  apply any_in_mentions. reflexivity.
Defined.

(** C3: on every code string the language classifier returns the label of
    the reference definition, taken in check order: Python on ["def "] and
    [":"]; else JavaScript on ["function"] and ["{"]; else Java on
    ["public class"] or ["private "]; else Python. *)
Theorem language_follows_reference (code : string) :
  (exists label,
      _get_language_from_code (VStr code) = Return label
      /\ classify_language code label
      /\ forall other, classify_language code other -> other = label)
  /\ (looks_python code ->
      _get_language_from_code (VStr code) = Return "Python")
  /\ (~ looks_python code -> looks_javascript code ->
      _get_language_from_code (VStr code) = Return "JavaScript")
  /\ (~ looks_python code -> ~ looks_javascript code -> looks_java code ->
      _get_language_from_code (VStr code) = Return "Java")
  /\ (~ looks_python code -> ~ looks_javascript code -> ~ looks_java code ->
      _get_language_from_code (VStr code) = Return "Python").
Proof.
  rewrite language_unfold.
  pose proof (looks_python_test code) as Hp.
  pose proof (looks_javascript_test code) as Hj.
  pose proof (looks_java_test code) as Hv.
  repeat split.
  - destruct (str_contains "def " code && str_contains ":" code) eqn:Ep;
      [| destruct (str_contains "function" code && str_contains "{" code) eqn:Ej;
         [| destruct (str_contains "public class" code
                      || str_contains "private " code) eqn:Ev]].
    + exists "Python". repeat split.
      * apply language_python. now apply Hp.
      * intros other Hc. destruct Hc as [H | H _ | H _ _ | H _ _]; trivial;
          exfalso; apply H; now apply Hp.
    + exists "JavaScript". repeat split.
      * apply language_javascript; [exact (never Hp) | now apply Hj].
      * intros other Hc. destruct Hc as [H | _ _ | _ H _ | _ H _]; trivial.
        -- exfalso. exact (never Hp H).
        -- exfalso. apply H. now apply Hj.
        -- exfalso. apply H. now apply Hj.
    + exists "Java". repeat split.
      * apply language_java;
          [exact (never Hp) | exact (never Hj) | now apply Hv].
      * intros other Hc. destruct Hc as [H | _ H | _ _ _ | _ _ H]; trivial.
        -- exfalso. exact (never Hp H).
        -- exfalso. exact (never Hj H).
        -- exfalso. apply H. now apply Hv.
    + exists "Python". repeat split.
      * apply language_default;
          [exact (never Hp) | exact (never Hj)
           | exact (never Hv)].
      * intros other Hc. destruct Hc as [_ | _ H | _ _ H | _ _ _]; trivial.
        -- exfalso. exact (never Hj H).
        -- exfalso. exact (never Hv H).
  - intros H. now rewrite (test_true Hp H).
  - intros H1 H2. now rewrite (test_absent Hp H1), (test_true Hj H2).
  - intros H1 H2 H3.
    now rewrite (test_absent Hp H1), (test_absent Hj H2), (test_true Hv H3).
  - intros H1 H2 H3.
    now rewrite (test_absent Hp H1), (test_absent Hj H2), (test_absent Hv H3).
Qed.

Lemma language_follows_reference_witness :
  _get_language_from_code (VStr "function f() { return 1; }")
  = Return "JavaScript".
Proof.
  apply (proj1 (proj2 (proj2 (language_follows_reference
           "function f() { return 1; }")))).
  - apply (test_false (looks_python_test _)). reflexivity.
  - apply looks_javascript_test. reflexivity.
Defined.

(** C10: both classifiers are total on strings and stay inside their label
    sets: the severity classifier returns one of harsh, neutral and
    constructive, the language classifier one of Python, JavaScript and
    Java; no string makes either raise. *)
Theorem classifiers_total_and_confined (text : string) :
  (exists label,
      _analyze_comment_severity (VStr text) = Return label
      /\ In label ["harsh"; "neutral"; "constructive"])
  /\ (exists label,
      _get_language_from_code (VStr text) = Return label
      /\ In label ["Python"; "JavaScript"; "Java"]).
Proof.
  rewrite severity_unfold, language_unfold. split.
  - destruct (any_in harsh_indicators (lower text));
      [| destruct (any_in neutral_indicators (lower text))];
      eexists; (split; [reflexivity | simpl; tauto]).
  - destruct (str_contains "def " text && str_contains ":" text);
      [| destruct (str_contains "function" text && str_contains "{" text);
         [| destruct (str_contains "public class" text
                      || str_contains "private " text)]];
      eexists; (split; [reflexivity | simpl; tauto]).
Qed.

(** ** The prompt builder on well-typed input *)

Lemma severities_of_strings (comments : list string) :
  exists labels,
    comprehension _analyze_comment_severity (map VStr comments) = Return labels.
Proof.
  induction comments as [|c rest [labels IH]]; simpl.
  - now exists [].
  - rewrite severity_unfold, IH. simpl. eexists. reflexivity.
Qed.

Lemma prompt_builder_total_on_strings
      (set_iter : list string -> list string) (py_repr : pyval -> string)
      (code : string) (comments : list string) :
  exists prompt,
    _create_empathetic_prompt set_iter py_repr
      (VStr code) (VList (map VStr comments)) = Return prompt.
Proof.
  unfold _create_empathetic_prompt.
  rewrite language_unfold. cbn [bind py_iter py_len].
  destruct (severities_of_strings comments) as [labels ->].
  cbn [bind]. eexists. reflexivity.
Qed.

(** ** The request orchestrator *)

Section Orchestrator.

Variable W : Type.
Variable chat_completions_create :
  Groq -> chat_request -> W -> result chat_completion * W.
Variable set_iter : list string -> list string.
Variable py_repr : pyval -> string.
Variable self : EmpathethicCodeReviewer.

Local Abbreviation attempt :=
  (review_attempt chat_completions_create set_iter py_repr self).
Local Abbreviation review :=
  (review_code chat_completions_create set_iter py_repr self).
Local Abbreviation process_input :=
  (process_json_input chat_completions_create set_iter py_repr self).

Lemma review_code_on_success code_snippet review_comments p v p' :
  attempt code_snippet review_comments p = (Return v, p') ->
  review code_snippet review_comments p = (Return v, p').
Proof.
  intros H. unfold review_code, try_except. now rewrite H.
Qed.

Lemma review_code_on_failure code_snippet review_comments p e p' :
  attempt code_snippet review_comments p = (Raise e, p') ->
  review code_snippet review_comments p
  = (Return (VStr (error_prefix ++ exn_str e)), p').
Proof.
  intros H. unfold review_code, try_except. now rewrite H.
Qed.

Lemma review_code_never_raises code_snippet review_comments p :
  exists v p', review code_snippet review_comments p = (Return v, p').
Proof.
  unfold review_code, try_except.
  destruct (attempt code_snippet review_comments p) as [[v | e] p'].
  - exists v, p'. reflexivity.
  - eexists _, p'. reflexivity.
Qed.

(** The first thing [review_code] does is call the prompt builder. *)
Lemma review_code_trace code_snippet review_comments p :
  exists rest,
    trace (snd (review code_snippet review_comments p))
    = (trace p
       ++ Call_create_empathetic_prompt code_snippet review_comments :: rest)%list.
Proof.
  unfold review_code, review_attempt, try_except, bindM, record, lift,
    ret, create.
  cbn [world trace].
  destruct (_create_empathetic_prompt set_iter py_repr code_snippet review_comments)
    as [prompt | e].
  - destruct (chat_completions_create (client self) (completion_request prompt)
                (world p)) as [[response | e] w].
    + cbn [trace]. rewrite <- app_assoc.
      destruct (first_choice_content response); eexists; reflexivity.
    + cbn [trace snd]. rewrite <- app_assoc. eexists; reflexivity.
  - cbn [snd trace]. eexists; reflexivity.
Qed.

Lemma process_json_input_present items code_snippet review_comments p :
  assoc "code_snippet" items = Some code_snippet ->
  assoc "review_comments" items = Some review_comments ->
  process_input (VDict items) p
  = review code_snippet review_comments p.
Proof.
  intros Hc Hr.
  unfold process_json_input, bindM, lift, or_else, py_not_in.
  cbn [py_in py_getitem bind]. unfold has_key. rewrite Hc, Hr.
  reflexivity.
Qed.

Lemma process_json_input_absent items p :
  has_key "code_snippet" items = false
  \/ has_key "review_comments" items = false ->
  process_input (VDict items) p
  = (Raise (mk_exn ValueError
              "JSON must contain 'code_snippet' and 'review_comments' keys"), p).
Proof.
  intros H.
  unfold process_json_input, bindM, lift, or_else, py_not_in, raise.
  cbn [py_in bind].
  destruct (has_key "code_snippet" items); cbn [negb bind].
  - destruct H as [H | ->]; [discriminate | reflexivity].
  - reflexivity.
Qed.

Lemma has_key_assoc key items :
  has_key key items = true -> exists v, assoc key items = Some v.
Proof.
  unfold has_key. destruct (assoc key items) as [v|]; [eauto | discriminate].
Qed.

End Orchestrator.

Section OrchestratorClaims.

Variable W : Type.
Variable chat_completions_create :
  Groq -> chat_request -> W -> result chat_completion * W.
Variable set_iter : list string -> list string.
Variable py_repr : pyval -> string.
Variable self : EmpathethicCodeReviewer.

Local Abbreviation attempt :=
  (review_attempt chat_completions_create set_iter py_repr self).
Local Abbreviation review :=
  (review_code chat_completions_create set_iter py_repr self).
Local Abbreviation process_input :=
  (process_json_input chat_completions_create set_iter py_repr self).

(** C1, as amended: on every request object that holds both
    [code_snippet] and [review_comments], [process_json_input] returns a
    value and raises nothing; whenever building the prompt, the completion
    call or reading the answer fails with an exception [e], the value
    returned is the string ["Error generating empathetic review: "]
    followed by [str(e)]. *)
Theorem process_json_input_returns_with_both_keys
        items code_snippet review_comments p :
  assoc "code_snippet" items = Some code_snippet ->
  assoc "review_comments" items = Some review_comments ->
  (exists v p', process_input (VDict items) p = (Return v, p'))
  /\ (forall e p',
         attempt code_snippet review_comments p = (Raise e, p') ->
         process_input (VDict items) p
         = (Return (VStr (error_prefix ++ exn_str e)), p')).
Proof.
  intros Hc Hr.
  rewrite (process_json_input_present _ _ _ _ _ _ _ _ _ Hc Hr). split.
  - apply review_code_never_raises.
  - intros e p' H. now apply review_code_on_failure.
Qed.

(** C4: for every code snippet and list of comments the prompt is built,
    and if the completion call on it raises an exception [e] then
    [review_code] returns the string
    ["Error generating empathetic review: "] followed by [str(e)]; it
    raises nothing. *)
Theorem review_code_absorbs_client_failure
        (code : string) (comments : list string) p :
  exists prompt,
    _create_empathetic_prompt set_iter py_repr
      (VStr code) (VList (map VStr comments)) = Return prompt
    /\ (forall e w,
           chat_completions_create (client self) (completion_request prompt)
                                   (world p) = (Raise e, w) ->
           fst (review (VStr code) (VList (map VStr comments)) p)
           = Return (VStr (error_prefix ++ exn_str e)))
    /\ (exists v p',
           review (VStr code) (VList (map VStr comments)) p = (Return v, p')).
Proof.
  destruct (prompt_builder_total_on_strings set_iter py_repr code comments)
    as [prompt Hprompt].
  exists prompt. split; [exact Hprompt |].
  split; [| apply review_code_never_raises].
  intros e w Hcall.
  unfold review_code, review_attempt, try_except, bindM, record, lift, create.
  rewrite Hprompt. cbn [world]. rewrite Hcall. reflexivity.
Qed.

(** C5: a request object that lacks [code_snippet] or [review_comments]
    makes [process_json_input] raise the validation error, a [ValueError],
    before anything else happens: the process is left as it was, with no
    call to the prompt builder and none to the completion client.  On an
    object holding both keys the validation passes: the prompt builder is
    called and a value is returned. *)
Theorem validation_by_key_presence items p :
  (has_key "code_snippet" items = false
   \/ has_key "review_comments" items = false ->
   process_input (VDict items) p
   = (Raise (mk_exn ValueError
               "JSON must contain 'code_snippet' and 'review_comments' keys"),
      p))
  /\ (has_key "code_snippet" items = true ->
      has_key "review_comments" items = true ->
      exists v p' code_snippet review_comments rest,
        process_input (VDict items) p = (Return v, p')
        /\ trace p'
           = (trace p
              ++ Call_create_empathetic_prompt code_snippet review_comments
                 :: rest)%list).
Proof.
  split.
  - apply process_json_input_absent.
  - intros Hc Hr.
    destruct (has_key_assoc _ _ Hc) as [code_snippet Ec].
    destruct (has_key_assoc _ _ Hr) as [review_comments Er].
    rewrite (process_json_input_present _ chat_completions_create
               set_iter py_repr self _ _ _ p Ec Er).
    destruct (review_code_never_raises _ chat_completions_create set_iter
                py_repr self code_snippet review_comments p) as [v [p' E]].
    destruct (review_code_trace _ chat_completions_create set_iter
                py_repr self code_snippet review_comments p) as [rest T].
    exists v, p', code_snippet, review_comments, rest.
    split; [exact E |]. now rewrite E in T.
Qed.

(** C7: two request objects that both hold [code_snippet] and
    [review_comments], with the same values under them, get the same
    result and leave the process in the same state, whatever other keys
    either of them carries. *)
Theorem extra_keys_ignored items1 items2 code_snippet review_comments p :
  assoc "code_snippet" items1 = Some code_snippet ->
  assoc "review_comments" items1 = Some review_comments ->
  assoc "code_snippet" items2 = Some code_snippet ->
  assoc "review_comments" items2 = Some review_comments ->
  process_input (VDict items1) p = process_input (VDict items2) p.
Proof.
  intros Hc1 Hr1 Hc2 Hr2.
  rewrite (process_json_input_present _ _ _ _ _ _ _ _ _ Hc1 Hr1).
  rewrite (process_json_input_present _ _ _ _ _ _ _ _ _ Hc2 Hr2).
  reflexivity.
Qed.

End OrchestratorClaims.

(** C1, as stated, fails: a request object without [review_comments] makes
    [process_json_input] raise [ValueError] to its caller; no string comes
    back. *)
Lemma process_json_input_raises_on_missing_key :
  let outcome :=
    fst (process_json_input (stub_client "OK") one_order repr_stub a_reviewer
           (VDict [("code_snippet", VStr "def f(): pass")]) (fresh no_files)) in
  outcome
  = Raise (mk_exn ValueError
             "JSON must contain 'code_snippet' and 'review_comments' keys")
  /\ ~ exists v, outcome = Return v.
Proof.
  split; [reflexivity | intros [v H]; discriminate H].
Qed.

Lemma process_json_input_returns_with_both_keys_witness :
  fst (process_json_input
         (failing_client (mk_exn (OtherException "APIConnectionError")
                                 "Connection error."))
         one_order repr_stub a_reviewer
         (VDict [("code_snippet", VStr "def f(): pass");
                 ("review_comments", VList [VStr "This is bad code"])])
         (fresh no_files))
  = Return (VStr "Error generating empathetic review: Connection error.").
Proof.
  refine (f_equal fst
            (proj2 (process_json_input_returns_with_both_keys
                      unit
                      (failing_client (mk_exn (OtherException "APIConnectionError")
                                              "Connection error."))
                      one_order repr_stub a_reviewer
                      [("code_snippet", VStr "def f(): pass");
                       ("review_comments", VList [VStr "This is bad code"])]
                      (VStr "def f(): pass") (VList [VStr "This is bad code"])
                      (fresh no_files) eq_refl eq_refl)
               (mk_exn (OtherException "APIConnectionError") "Connection error.")
               (snd (review_attempt
                       (failing_client (mk_exn (OtherException "APIConnectionError")
                                               "Connection error."))
                       one_order repr_stub a_reviewer
                       (VStr "def f(): pass") (VList [VStr "This is bad code"])
                       (fresh no_files)))
               _)).
  vm_compute. reflexivity.
Defined.

Lemma review_code_absorbs_client_failure_witness :
  fst (review_code (failing_client (mk_exn (OtherException "RateLimitError")
                                           "rate limit reached"))
         one_order repr_stub a_reviewer
         (VStr "def f(): pass") (VList [VStr "This is bad code"])
         (fresh no_files))
  = Return (VStr "Error generating empathetic review: rate limit reached").
Proof.
  destruct (review_code_absorbs_client_failure unit
              (failing_client (mk_exn (OtherException "RateLimitError")
                                      "rate limit reached"))
              one_order repr_stub a_reviewer
              "def f(): pass" ["This is bad code"] (fresh no_files))
    as [prompt [_ [H _]]].
  exact (H _ tt eq_refl).
Defined.

Lemma validation_by_key_presence_witness :
  process_json_input (stub_client "OK") one_order repr_stub a_reviewer
    (VDict [("review_comments", VList [VStr "This is bad code"])])
    (fresh no_files)
  = (Raise (mk_exn ValueError
              "JSON must contain 'code_snippet' and 'review_comments' keys"),
     fresh no_files).
Proof.
  apply (proj1 (validation_by_key_presence unit (stub_client "OK") one_order
                  repr_stub a_reviewer _ (fresh no_files))).
  left. reflexivity.
Defined.

Lemma extra_keys_ignored_witness :
  process_json_input (stub_client "OK") one_order repr_stub a_reviewer
    (VDict [("code_snippet", VStr "def f(): pass");
            ("review_comments", VList [VStr "This is bad code"]);
            ("author", VStr "someone")])
    (fresh no_files)
  = process_json_input (stub_client "OK") one_order repr_stub a_reviewer
      (VDict [("ticket", VInt 7);
              ("review_comments", VList [VStr "This is bad code"]);
              ("code_snippet", VStr "def f(): pass")])
      (fresh no_files).
Proof.
  apply (extra_keys_ignored unit (stub_client "OK") one_order repr_stub
           a_reviewer _ _
           (VStr "def f(): pass") (VList [VStr "This is bad code"]));
    reflexivity.
Defined.

(** ** The prompt builder and the order of a set *)

Lemma one_order_ok : set_order_ok one_order.
Proof.
  intros xs. split; [apply NoDup_nodup | intros x; apply nodup_In].
Qed.

Lemma other_order_ok : set_order_ok other_order.
Proof.
  intros xs. unfold other_order. split.
  - apply NoDup_rev, NoDup_nodup.
  - intros x. rewrite <- in_rev. apply nodup_In.
Qed.

Lemma set_orders_permute set_iter1 set_iter2 (xs : list string) :
  set_order_ok set_iter1 -> set_order_ok set_iter2 ->
  Permutation (set_iter1 xs) (set_iter2 xs).
Proof.
  intros H1 H2. destruct (H1 xs) as [N1 I1], (H2 xs) as [N2 I2].
  apply NoDup_Permutation; trivial.
  intros x. now rewrite I1, I2.
Qed.

Lemma set_order_singleton set_iter (x : string) :
  set_order_ok set_iter -> set_iter [x] = [x].
Proof.
  intros H. destruct (H [x]) as [N I].
  destruct (set_iter [x]) as [|a rest].
  - exfalso. apply (I x). now left.
  - assert (a = x) as ->.
    { destruct (proj1 (I a) (or_introl eq_refl)) as [E | []]. now symmetry. }
    destruct rest as [|b rest]; [reflexivity | exfalso].
    assert (b = x) as ->.
    { destruct (proj1 (I b) (or_intror (or_introl eq_refl))) as [E | []].
      now symmetry. }
    inversion N as [|? ? Hnot _]. apply Hnot. now left.
Qed.

Lemma short_permutation_eq (xs ys : list string) :
  Permutation xs ys -> List.length xs <= 1 -> xs = ys.
Proof.
  intros HP Hlen. destruct xs as [|x [|x' xs]].
  - now apply Permutation_nil in HP.
  - now apply Permutation_length_1_inv in HP.
  - simpl in Hlen. lia.
Qed.

(** What a prompt that was built is made of. *)
Lemma prompt_builder_shape set_iter py_repr code_snippet comments prompt :
  _create_empathetic_prompt set_iter py_repr code_snippet comments = Return prompt ->
  exists language elements severities count,
    _get_language_from_code code_snippet = Return language
    /\ py_iter comments = Return elements
    /\ comprehension _analyze_comment_severity elements = Return severities
    /\ py_len comments = Return count
    /\ prompt
       = template_head language (str_of_nat count)
         ++ String.concat ", " (set_iter severities)
         ++ template_tail (lower language) (py_str py_repr code_snippet)
                          (String.concat nl (numbered py_repr 0 elements)).
Proof.
  unfold _create_empathetic_prompt.
  destruct (_get_language_from_code code_snippet) as [language|] eqn:Hl;
    [| discriminate].
  destruct (py_iter comments) as [elements|] eqn:He; [| discriminate].
  cbn [bind].
  destruct (comprehension _analyze_comment_severity elements)
    as [severities|] eqn:Hs; [| discriminate].
  destruct (py_len comments) as [count|] eqn:Hc; [| discriminate].
  cbn [bind]. intros H. injection H as <-.
  exists language, elements, severities, count. repeat split; trivial.
Qed.

(** The converse: the prompt assembled from the intermediate results. *)
Lemma prompt_builder_assembles
      set_iter py_repr code_snippet comments language elements severities count :
  _get_language_from_code code_snippet = Return language ->
  py_iter comments = Return elements ->
  comprehension _analyze_comment_severity elements = Return severities ->
  py_len comments = Return count ->
  _create_empathetic_prompt set_iter py_repr code_snippet comments
  = Return (template_head language (str_of_nat count)
            ++ String.concat ", " (set_iter severities)
            ++ template_tail (lower language) (py_str py_repr code_snippet)
                 (String.concat nl (numbered py_repr 0 elements))).
Proof.
  intros Hl He Hs Hc. unfold _create_empathetic_prompt.
  rewrite Hl, He. cbn [bind]. rewrite Hs, Hc. reflexivity.
Qed.

(** C6, as amended: the prompt is a function of the code, the comments and
    the order in which the set of severity labels is iterated.  Two
    invocations on the same input fail alike or both build a prompt; the two
    prompts have the same text before and after the labels on the line
    [Comment severity levels detected], and the labels on that line are the
    same up to their order.  The prompts are identical when the two orders
    agree on the labels, and when at most one distinct label was detected. *)
Theorem prompt_fixed_up_to_label_order
        set_iter1 set_iter2 py_repr code_snippet comments :
  set_order_ok set_iter1 ->
  set_order_ok set_iter2 ->
  (forall e,
      _create_empathetic_prompt set_iter1 py_repr code_snippet comments = Raise e
      <-> _create_empathetic_prompt set_iter2 py_repr code_snippet comments = Raise e)
  /\ (forall prompt1,
         _create_empathetic_prompt set_iter1 py_repr code_snippet comments
         = Return prompt1 ->
         exists language elements severities count,
           _get_language_from_code code_snippet = Return language
           /\ py_iter comments = Return elements
           /\ comprehension _analyze_comment_severity elements = Return severities
           /\ py_len comments = Return count)
  /\ (forall language elements severities count,
         _get_language_from_code code_snippet = Return language ->
         py_iter comments = Return elements ->
         comprehension _analyze_comment_severity elements = Return severities ->
         py_len comments = Return count ->
         let head := template_head language (str_of_nat count) in
         let tail := template_tail (lower language) (py_str py_repr code_snippet)
                       (String.concat nl (numbered py_repr 0 elements)) in
         _create_empathetic_prompt set_iter1 py_repr code_snippet comments
         = Return (head ++ String.concat ", " (set_iter1 severities) ++ tail)
         /\ _create_empathetic_prompt set_iter2 py_repr code_snippet comments
            = Return (head ++ String.concat ", " (set_iter2 severities) ++ tail)
         /\ Permutation (set_iter1 severities) (set_iter2 severities)
         /\ (set_iter1 severities = set_iter2 severities
             \/ List.length (set_iter1 severities) <= 1 ->
             _create_empathetic_prompt set_iter2 py_repr code_snippet comments
             = _create_empathetic_prompt set_iter1 py_repr code_snippet comments)).
Proof.
  intros H1 H2. split; [| split].
  - intros e. unfold _create_empathetic_prompt.
    destruct (_get_language_from_code code_snippet); [| reflexivity].
    destruct (py_iter comments) as [elements|]; [| reflexivity].
    cbn [bind].
    destruct (comprehension _analyze_comment_severity elements);
      [| reflexivity].
    destruct (py_len comments); [| reflexivity].
    cbn [bind]. split; discriminate.
  - intros prompt1 Hbuilt.
    destruct (prompt_builder_shape _ _ _ _ _ Hbuilt)
      as (language & elements & severities & count & Hl & He & Hs & Hc & _).
    now exists language, elements, severities, count.
  - intros language elements severities count Hl He Hs Hc head tail.
    assert (forall set_iter,
               _create_empathetic_prompt set_iter py_repr code_snippet comments
               = Return (head ++ String.concat ", " (set_iter severities) ++ tail))
      as Hbuilt.
    { intros set_iter. now apply prompt_builder_assembles. }
    pose proof (set_orders_permute _ _ severities H1 H2) as HP.
    rewrite !Hbuilt. repeat split; trivial.
    intros [E | Hshort].
    + now rewrite E.
    + now rewrite (short_permutation_eq _ _ HP Hshort).
Qed.

(** C6, as stated, fails: on one and the same input the builder yields two
    different prompts under two iteration orders of the set of labels. *)
Lemma prompt_depends_on_set_order :
  set_order_ok one_order
  /\ set_order_ok other_order
  /\ _create_empathetic_prompt one_order repr_stub
       (VStr "def f(): pass")
       (VList [VStr "This is bad code"; VStr "You could rename it"])
     <> _create_empathetic_prompt other_order repr_stub
          (VStr "def f(): pass")
          (VList [VStr "This is bad code"; VStr "You could rename it"]).
Proof.
  split; [exact one_order_ok | split; [exact other_order_ok |]].
  intros H.
  apply (f_equal (fun r => match r with
                           | Return text => str_contains "harsh, neutral" text
                           | Raise _ => false
                           end)) in H.
  vm_compute in H. discriminate H.
Qed.

Lemma prompt_fixed_up_to_label_order_witness :
  _create_empathetic_prompt other_order repr_stub
    (VStr "def f(): pass") (VList [VStr "This is bad code"])
  = _create_empathetic_prompt one_order repr_stub
      (VStr "def f(): pass") (VList [VStr "This is bad code"]).
Proof.
  apply (proj2 (proj2 (prompt_fixed_up_to_label_order
                         one_order other_order repr_stub
                         (VStr "def f(): pass") (VList [VStr "This is bad code"])
                         one_order_ok other_order_ok))
               "Python" [VStr "This is bad code"] ["harsh"] 1
               eq_refl eq_refl eq_refl eq_refl).
  right. apply le_n.
Defined.

(** ** The end-to-end scenario *)

(** C8: on the code [def f(): pass] with the one comment
    [This is bad code], the language classifier yields Python and the
    severity classifier harsh; the prompt that is built contains the
    substrings Python, harsh and the comment itself, and its severity line
    reads harsh; with a stubbed completion client that answers OK,
    processing the request returns exactly OK. *)
Theorem end_to_end_scenario
        (W : Type) set_iter py_repr self (p : process W) :
  set_order_ok set_iter ->
  _get_language_from_code (VStr "def f(): pass") = Return "Python"
  /\ _analyze_comment_severity (VStr "This is bad code") = Return "harsh"
  /\ (exists prompt,
         _create_empathetic_prompt set_iter py_repr
           (VStr "def f(): pass") (VList [VStr "This is bad code"])
         = Return prompt
         /\ str_contains "Python" prompt = true
         /\ str_contains "harsh" prompt = true
         /\ str_contains "This is bad code" prompt = true
         /\ str_contains ("- Comment severity levels detected: harsh" ++ nl)
                         prompt = true)
  /\ fst (process_json_input (stub_client "OK") set_iter py_repr self
            (VDict [("code_snippet", VStr "def f(): pass");
                    ("review_comments", VList [VStr "This is bad code"])])
            p)
     = Return (VStr "OK").
Proof.
  intros Hok.
  pose proof (prompt_builder_assembles set_iter py_repr
                (VStr "def f(): pass") (VList [VStr "This is bad code"])
                "Python" [VStr "This is bad code"] ["harsh"] 1
                eq_refl eq_refl eq_refl eq_refl) as Hbuilt.
  rewrite (set_order_singleton _ _ Hok) in Hbuilt.
  split; [reflexivity | split; [reflexivity | split]].
  - eexists. split; [exact Hbuilt |].
    repeat split; vm_compute; reflexivity.
  - rewrite (process_json_input_present W (stub_client "OK") set_iter py_repr self
               [("code_snippet", VStr "def f(): pass");
                ("review_comments", VList [VStr "This is bad code"])]
               (VStr "def f(): pass") (VList [VStr "This is bad code"]) p
               eq_refl eq_refl).
    unfold review_code, review_attempt, try_except, bindM, record, lift, create.
    rewrite Hbuilt. reflexivity.
Qed.

Lemma end_to_end_scenario_witness :
  fst (process_json_input (stub_client "OK") one_order repr_stub a_reviewer
         (VDict [("code_snippet", VStr "def f(): pass");
                 ("review_comments", VList [VStr "This is bad code"])])
         (fresh no_files))
  = Return (VStr "OK").
Proof.
  apply (end_to_end_scenario unit one_order repr_stub a_reviewer
           (fresh no_files) one_order_ok).
Defined.

(** ** The command line *)

(** C9, as amended: when nothing is at the input path, so that [open]
    raises [FileNotFoundError], [main] prints
    [Error: Input file '<path>' not found] to standard error and exits with
    status 1; when the file is read as text and [json.load] rejects the text
    with [JSONDecodeError], it prints [Error: Invalid JSON in '<path>'] to
    standard error and exits with status 1.  Every other failure to open,
    read or parse the input (a path that runs through a regular file, a
    directory, a missing permission, bytes that do not decode, a parser
    giving up) is reported as [Error: ] followed by the text of the
    exception, again with status 1.  In all these cases nothing else
    changes: nothing goes to standard output, no file is written, no
    request is sent. *)
Theorem cli_reports_bad_input
        (W : Type) chat_completions_create set_iter py_repr json_loads getenv
        otherwise open_for_writing (a : args) (p : process W) :
  let run :=
    main chat_completions_create set_iter py_repr json_loads getenv
         otherwise open_for_writing a p in
  let reported line :=
    (1%Z,
     mk_process (world p) (trace p) (files p) (stdout p)
       (stderr p ++ line ++ nl)) in
  (files p (input_file a) = None ->
   otherwise (input_file a) = Missing ->
   run = reported ("Error: Input file '" ++ input_file a ++ "' not found"))
  /\ (forall text e,
         files p (input_file a) = Some text ->
         json_loads text = inr e ->
         exn_cls e = JSONDecodeError ->
         run = reported ("Error: Invalid JSON in '" ++ input_file a ++ "'"))
  /\ (files p (input_file a) = None ->
      otherwise (input_file a) = Unreachable ->
      run = reported ("Error: [Errno 20] Not a directory: '"
                      ++ input_file a ++ "'"))
  /\ (forall e,
         files p (input_file a) = None ->
         otherwise (input_file a) = Unreadable e ->
         exn_cls e <> FileNotFoundError ->
         exn_cls e <> JSONDecodeError ->
         run = reported ("Error: " ++ exn_str e))
  /\ (forall text e,
         files p (input_file a) = Some text ->
         json_loads text = inr e ->
         exn_cls e <> FileNotFoundError ->
         exn_cls e <> JSONDecodeError ->
         run = reported ("Error: " ++ exn_str e)).
Proof.
  cbv zeta. repeat split.
  - intros Hnone Hmissing.
    unfold main, main_body, bindM, read_file. rewrite Hnone, Hmissing.
    reflexivity.
  - intros text e Hfile Hbad Hcls.
    unfold main, main_body, bindM, read_file, lift, json_load.
    rewrite Hfile, Hbad. cbn [exn_cls]. rewrite Hcls. reflexivity.
  - intros Hnone Hbarred.
    unfold main, main_body, bindM, read_file. rewrite Hnone, Hbarred.
    reflexivity.
  - intros e Hnone Hthere Hnf Hnj.
    unfold main, main_body, bindM, read_file. rewrite Hnone, Hthere.
    destruct (exn_cls e); try reflexivity; congruence.
  - intros text e Hfile Hbad Hnf Hnj.
    unfold main, main_body, bindM, read_file, lift, json_load.
    rewrite Hfile, Hbad.
    destruct (exn_cls e); try reflexivity; congruence.
Qed.

(** C9, as stated, fails on both counts.  A path that runs through a
    regular file does not exist, yet [open] raises [NotADirectoryError] and
    the message is not the one for a missing input file.  A file whose
    bytes do not decode exists and is not valid JSON, yet the read raises
    [UnicodeDecodeError] and the message is not the one for invalid JSON. *)
Lemma cli_misreports_other_bad_input :
  let through_a_file :=
    main (stub_client "OK") one_order repr_stub (parsed_as a_request)
         env_with_key
         (fun path => if String.eqb path "notes.txt/review.json"
                      then Unreachable else Missing)
         all_writable
         (mk_args "notes.txt/review.json" None)
         (fresh (one_file "notes.txt" "some notes")) in
  let undecodable :=
    main (stub_client "OK") one_order repr_stub (parsed_as a_request)
         env_with_key
         (fun path =>
            if String.eqb path "review.json"
            then Unreadable
                   (mk_exn (OtherException "UnicodeDecodeError")
                      "'utf-8' codec can't decode byte 0xff in position 0: invalid start byte")
            else Missing)
         all_writable
         (mk_args "review.json" None)
         (fresh no_files) in
  (fst through_a_file = 1%Z
   /\ stderr (snd through_a_file)
      = "Error: [Errno 20] Not a directory: 'notes.txt/review.json'" ++ nl
   /\ stderr (snd through_a_file)
      <> "Error: Input file 'notes.txt/review.json' not found" ++ nl)
  /\ (fst undecodable = 1%Z
      /\ stderr (snd undecodable)
         = "Error: 'utf-8' codec can't decode byte 0xff in position 0: invalid start byte"
           ++ nl
      /\ stderr (snd undecodable) <> "Error: Invalid JSON in 'review.json'" ++ nl).
Proof.
  cbv zeta. repeat split; try reflexivity; intros H; vm_compute in H;
    discriminate H.
Qed.

Lemma cli_reports_bad_input_witness :
  main (stub_client "OK") one_order repr_stub
       (fun _ => inr (mk_exn JSONDecodeError
                        "Expecting value: line 1 column 1 (char 0)"))
       env_with_key nothing_else all_writable
       (mk_args "review.json" (Some "out.md"))
       (fresh (one_file "review.json" "not json"))
  = (1%Z,
     mk_process tt [] (one_file "review.json" "not json") EmptyString
       ("Error: Invalid JSON in 'review.json'" ++ nl)).
Proof.
  apply (proj1 (proj2 (cli_reports_bad_input unit (stub_client "OK") one_order
                         repr_stub
                         (fun _ => inr (mk_exn JSONDecodeError
                                          "Expecting value: line 1 column 1 (char 0)"))
                         env_with_key nothing_else all_writable
                         (mk_args "review.json" (Some "out.md"))
                         (fresh (one_file "review.json" "not json"))))
               "not json"
               (mk_exn JSONDecodeError "Expecting value: line 1 column 1 (char 0)"));
    reflexivity.
Defined.

(** * Further properties of the code *)

(** ** Occurrences *)

Lemma str_app_assoc (a b c : string) : (a ++ b) ++ c = a ++ b ++ c.
Proof.
  induction a as [|x a IH]; simpl; [reflexivity | now rewrite IH].
Qed.

Lemma occurs_refl (s : string) : occurs s s.
Proof.
  exists EmptyString, EmptyString. simpl.
  induction s as [|c s IH]; simpl; [reflexivity | now rewrite <- IH].
Qed.

Lemma occurs_inside (sub s before after : string) :
  occurs sub s -> occurs sub (before ++ s ++ after).
Proof.
  intros [a [b ->]]. exists (before ++ a), (b ++ after).
  now rewrite !str_app_assoc.
Qed.

Lemma occurs_trans (a b c : string) : occurs a b -> occurs b c -> occurs a c.
Proof.
  intros Hab [x [y ->]]. now apply occurs_inside.
Qed.

Lemma occurs_app_l (sub a b : string) : occurs sub a -> occurs sub (a ++ b).
Proof.
  intros H. apply (occurs_inside sub a EmptyString b H).
Qed.

Lemma occurs_app_r (sub a b : string) : occurs sub b -> occurs sub (a ++ b).
Proof.
  intros [x [y ->]]. exists (a ++ x), y. now rewrite str_app_assoc.
Qed.

Lemma occurs_concat (sep x : string) (xs : list string) :
  In x xs -> occurs x (String.concat sep xs).
Proof.
  induction xs as [|y [|z rest] IH]; simpl.
  - intros [].
  - intros [-> | []]. apply occurs_refl.
  - intros [-> | H].
    + apply occurs_app_l, occurs_refl.
    + apply occurs_app_r, occurs_app_r, IH, H.
Qed.

Lemma occurs_concat_line (sep x : string) (xs : list string) :
  In x (removelast xs) -> occurs (x ++ sep) (String.concat sep xs).
Proof.
  induction xs as [|y [|z rest] IH].
  - intros [].
  - intros [].
  - cbn [removelast String.concat]. intros [-> | H].
    + exists EmptyString, (String.concat sep (z :: rest)).
      now rewrite str_app_assoc.
    + apply occurs_app_r, occurs_app_r, IH, H.
Qed.

Lemma mentions_inside (keywords : list string) (text before after : string) :
  mentions keywords (lower text) ->
  mentions keywords (lower (before ++ text ++ after)).
Proof.
  intros [k [Hin H]]. exists k. split; [exact Hin |].
  rewrite !lower_app. now apply occurs_inside.
Qed.

(** ** More on the classifiers *)

(** X1: harshness survives any surrounding text: a comment classified harsh
    stays harsh when text is put before or after it, and a comment that is
    not constructive never becomes constructive that way. *)
Theorem severity_survives_extension (comment before after : string) :
  (_analyze_comment_severity (VStr comment) = Return "harsh" ->
   _analyze_comment_severity (VStr (before ++ comment ++ after)) = Return "harsh")
  /\ (_analyze_comment_severity (VStr comment) <> Return "constructive" ->
      _analyze_comment_severity (VStr (before ++ comment ++ after))
      <> Return "constructive").
Proof.
  rewrite !severity_unfold.
  pose proof (any_in_mentions harsh_indicators (lower comment)) as Hh.
  pose proof (any_in_mentions neutral_indicators (lower comment)) as Hn.
  pose proof (any_in_mentions harsh_indicators
                (lower (before ++ comment ++ after))) as Hh'.
  pose proof (any_in_mentions neutral_indicators
                (lower (before ++ comment ++ after))) as Hn'.
  pose proof (mentions_inside harsh_indicators comment before after) as Mh.
  pose proof (mentions_inside neutral_indicators comment before after) as Mn.
  destruct (any_in harsh_indicators (lower comment)).
  - rewrite (test_true Hh' (Mh (proj1 Hh eq_refl))).
    split; [reflexivity | intros _; discriminate].
  - destruct (any_in neutral_indicators (lower comment)).
    + rewrite (test_true Hn' (Mn (proj1 Hn eq_refl))).
      split; [discriminate |].
      intros _. destruct (any_in harsh_indicators _); discriminate.
    + split; [discriminate | intros H; now elim H].
Qed.

Lemma severity_survives_extension_witness :
  _analyze_comment_severity
    (VStr ("Nice work overall, but " ++ "this loop is Terrible" ++ ", could you fix it?"))
  = Return "harsh".
Proof.
  apply (proj1 (severity_survives_extension
                  "this loop is Terrible" "Nice work overall, but "
                  ", could you fix it?")).
  reflexivity.
Defined.

(** X2: the Python markers win over everything around them: code that
    contains a piece with ["def "] and [":"] in it is classified Python,
    whatever JavaScript or Java markers the rest of it carries. *)
Theorem python_markers_dominate (piece before after : string) :
  looks_python piece ->
  _get_language_from_code (VStr (before ++ piece ++ after)) = Return "Python".
Proof.
  intros [Hdef Hcolon]. rewrite language_unfold.
  rewrite (test_true (looks_python_test _)); [reflexivity |].
  split; now apply occurs_inside.
Qed.

Lemma python_markers_dominate_witness :
  _get_language_from_code
    (VStr ("public class A { function g() {} } " ++ "def f(): pass" ++ " private int x;"))
  = Return "Python".
Proof.
  apply (python_markers_dominate "def f(): pass").
  apply looks_python_test. reflexivity.
Defined.

(** X3: a comment that is not a string makes the severity classifier raise
    [AttributeError]; a code snippet that is [None], a boolean or a number
    makes the language classifier raise [TypeError]. *)
Theorem classifiers_reject_other_types (v : pyval) :
  ((forall s, v <> VStr s) ->
   exists e, _analyze_comment_severity v = Raise e /\ exn_cls e = AttributeError)
  /\ ((forall s, v <> VStr s) -> (forall items, v <> VList items) ->
      (forall items, v <> VDict items) ->
      exists e, _get_language_from_code v = Raise e /\ exn_cls e = TypeError).
Proof.
  split.
  - intros Hstr. destruct v; try (eexists; split; reflexivity).
    now elim (Hstr s).
  - intros Hstr Hlist Hdict. destruct v; try (eexists; split; reflexivity).
    + now elim (Hstr s).
    + now elim (Hlist items).
    + now elim (Hdict items).
Qed.

Lemma classifiers_reject_other_types_witness :
  exists e, _analyze_comment_severity (VInt 3) = Raise e
            /\ exn_cls e = AttributeError.
Proof.
  apply (proj1 (classifiers_reject_other_types (VInt 3))).
  intros s H. discriminate H.
Defined.

(** ** More on the prompt builder *)

Lemma numbered_nth py_repr (comments : list pyval) (i k : nat) :
  nth_error (numbered py_repr i comments) k
  = option_map (fun comment =>
                  str_of_nat (i + k + 1) ++ ". " ++ py_str py_repr comment)
               (nth_error comments k).
Proof.
  revert i k. induction comments as [|c rest IH]; intros i k.
  - now destruct k.
  - destruct k as [|k]; cbn [numbered nth_error option_map].
    + now rewrite Nat.add_0_r.
    + rewrite IH. now replace (S i + k + 1) with (i + S k + 1) by lia.
Qed.

Lemma numbered_length py_repr (comments : list pyval) (i : nat) :
  List.length (numbered py_repr i comments) = List.length comments.
Proof.
  revert i. induction comments as [|c rest IH]; intros i; simpl;
    [reflexivity | now rewrite IH].
Qed.

(** X4: in the prompt built for a code string and a list of comment
    strings, the block under [Original Review Comments] holds one entry per
    comment, in the order of the input, the entries joined by line feeds;
    entry [k] (counting from 0) is [k+1], a dot, a space and comment [k]
    unchanged. *)
Theorem comments_numbered_from_one
        set_iter py_repr (code : string) (comments : list string) :
  exists language severities entries,
    _create_empathetic_prompt set_iter py_repr
      (VStr code) (VList (map VStr comments))
    = Return (template_head language (str_of_nat (List.length comments))
              ++ String.concat ", " (set_iter severities)
              ++ template_tail (lower language) code (String.concat nl entries))
    /\ List.length entries = List.length comments
    /\ forall k comment,
        nth_error comments k = Some comment ->
        nth_error entries k = Some (str_of_nat (k + 1) ++ ". " ++ comment).
Proof.
  destruct (prompt_builder_total_on_strings set_iter py_repr code comments)
    as [prompt Hbuilt].
  destruct (prompt_builder_shape _ _ _ _ _ Hbuilt)
    as (language & elements & severities & count & _ & He & _ & Hc & ->).
  cbn [py_iter py_len] in He, Hc.
  injection He as <-. injection Hc as <-.
  rewrite length_map in Hbuilt.
  exists language, severities, (numbered py_repr 0 (map VStr comments)).
  split; [exact Hbuilt | split].
  - now rewrite numbered_length, length_map.
  - intros k comment Hk.
    now rewrite numbered_nth, nth_error_map, Hk.
Qed.

Lemma numbered_mentions py_repr (comments : list string) (i : nat) comment :
  In comment comments ->
  exists line,
    In line (numbered py_repr i (map VStr comments)) /\ occurs comment line.
Proof.
  revert i. induction comments as [|c rest IH]; intros i; [intros [] |].
  intros [-> | H]; cbn [map numbered].
  - eexists. split; [left; reflexivity |].
    apply occurs_app_r, occurs_app_r, occurs_refl.
  - destruct (IH (S i) H) as [line [Hin Hocc]].
    exists line. split; [right; exact Hin | exact Hocc].
Qed.

(** X5: the prompt carries its input verbatim.  For every code string and
    list of comment strings a prompt is built; the code occurs in it
    unchanged, so does every comment, and it states the number of
    comments. *)
Theorem prompt_embeds_input_verbatim
        set_iter py_repr (code : string) (comments : list string) :
  exists prompt,
    _create_empathetic_prompt set_iter py_repr
      (VStr code) (VList (map VStr comments)) = Return prompt
    /\ occurs code prompt
    /\ (forall comment, In comment comments -> occurs comment prompt)
    /\ occurs ("- Number of comments to transform: "
               ++ str_of_nat (List.length comments) ++ nl) prompt.
Proof.
  destruct (prompt_builder_total_on_strings set_iter py_repr code comments)
    as [prompt Hbuilt].
  exists prompt. split; [exact Hbuilt |].
  destruct (prompt_builder_shape _ _ _ _ _ Hbuilt)
    as (language & elements & severities & count & _ & He & _ & Hc & ->).
  cbn [py_iter py_len] in He, Hc.
  injection He as <-. injection Hc as <-. rewrite length_map.
  split; [| split].
  - apply occurs_app_r, occurs_app_r. unfold template_tail.
    apply occurs_concat. cbn [py_str]. do 4 right. left. reflexivity.
  - intros comment Hin. apply occurs_app_r, occurs_app_r.
    destruct (numbered_mentions py_repr comments 0 comment Hin)
      as [line [Hline Hocc]].
    apply (occurs_trans _ (String.concat nl (numbered py_repr 0 (map VStr comments)))).
    + apply (occurs_trans _ line); [exact Hocc | apply occurs_concat, Hline].
    + unfold template_tail. apply occurs_concat. do 8 right. left. reflexivity.
  - apply occurs_app_l. unfold template_head.
    rewrite <- str_app_assoc. apply occurs_concat_line.
    cbn [removelast]. do 4 right. left. reflexivity.
Qed.

Lemma set_order_nil set_iter : set_order_ok set_iter -> set_iter [] = [].
Proof.
  intros H. destruct (H []) as [_ I].
  destruct (set_iter []) as [|x rest]; [reflexivity |].
  now elim (proj1 (I x) (or_introl eq_refl)).
Qed.

(** X6: an empty list of comments is not rejected: the prompt is built, it
    says 0 comments, names no severity level and lists no comment. *)
Theorem empty_comment_list_accepted set_iter py_repr (code : string) :
  set_order_ok set_iter ->
  exists language,
    _get_language_from_code (VStr code) = Return language
    /\ _create_empathetic_prompt set_iter py_repr (VStr code) (VList [])
       = Return (template_head language "0"
                 ++ template_tail (lower language) code EmptyString).
Proof.
  intros Hok. eexists. split; [apply language_unfold |].
  pose proof (language_unfold code) as Hl.
  rewrite (prompt_builder_assembles set_iter py_repr (VStr code) (VList [])
             _ [] [] 0 Hl eq_refl eq_refl eq_refl).
  now rewrite (set_order_nil _ Hok).
Qed.

Lemma empty_comment_list_accepted_witness :
  exists language,
    _get_language_from_code (VStr "x = 1") = Return language
    /\ _create_empathetic_prompt one_order repr_stub (VStr "x = 1") (VList [])
       = Return (template_head language "0"
                 ++ template_tail (lower language) "x = 1" EmptyString).
Proof.
  apply (empty_comment_list_accepted one_order repr_stub "x = 1" one_order_ok).
Defined.

Lemma chars_length (text : string) :
  List.length (chars text) = String.length text.
Proof.
  induction text as [|c rest IH]; simpl; [reflexivity | now rewrite IH].
Qed.

Lemma long_word_not_in_char (a b d : ascii) (word : string) :
  str_contains (String a (String b word)) (String d EmptyString) = false.
Proof.
  cbn. now destruct (ascii_dec a d).
Qed.

Lemma single_char_constructive (c : ascii) :
  _analyze_comment_severity (VStr (String c EmptyString)) = Return "constructive".
Proof.
  rewrite severity_unfold. cbn [lower].
  unfold any_in, harsh_indicators, neutral_indicators. cbn [existsb].
  now rewrite !long_word_not_in_char.
Qed.

Lemma chars_all_constructive (text : string) :
  comprehension _analyze_comment_severity (map VStr (chars text))
  = Return (repeat "constructive" (String.length text)).
Proof.
  induction text as [|c rest IH]; [reflexivity |].
  cbn [chars map comprehension String.length repeat].
  now rewrite single_char_constructive, IH.
Qed.

(** X7: a [review_comments] that is one string instead of a list is not
    rejected: it is read character by character, the prompt being the one
    built for the list of its characters, and every such one-character
    comment is classified constructive. *)
Theorem string_of_comments_read_by_character
        set_iter py_repr (code_snippet : pyval) (text : string) :
  _create_empathetic_prompt set_iter py_repr code_snippet (VStr text)
  = _create_empathetic_prompt set_iter py_repr code_snippet
      (VList (map VStr (chars text)))
  /\ comprehension _analyze_comment_severity (map VStr (chars text))
     = Return (repeat "constructive" (String.length text)).
Proof.
  split; [| apply chars_all_constructive].
  unfold _create_empathetic_prompt. cbn [py_iter py_len].
  now rewrite length_map, chars_length.
Qed.

Lemma severity_rejects (v : pyval) :
  (forall s, v <> VStr s) ->
  exists e, _analyze_comment_severity v = Raise e /\ exn_cls e = AttributeError.
Proof.
  intros Hstr. destruct v; try (eexists; split; reflexivity).
  now elim (Hstr s).
Qed.

Lemma severities_reject (items : list pyval) (v : pyval) :
  In v items -> (forall s, v <> VStr s) ->
  exists e,
    comprehension _analyze_comment_severity items = Raise e
    /\ exn_cls e = AttributeError.
Proof.
  intros Hin Hstr. induction items as [|x rest IH]; [destruct Hin |].
  cbn [comprehension].
  destruct x as [| b | z | f | text | l | d];
    try (match goal with
         | |- context [_analyze_comment_severity ?x] =>
             destruct (severity_rejects x ltac:(intros ? H; discriminate H))
               as [e [-> He]]
         end; exists e; split; [reflexivity | exact He]).
  destruct Hin as [<- | Hin]; [exfalso; exact (Hstr _ eq_refl) |].
  rewrite severity_unfold. cbn [bind].
  destruct (IH Hin) as [e [-> He]]. exists e. split; [reflexivity | exact He].
Qed.

(** X8: one comment that is not a string is enough to stop the prompt
    builder: for a code string and a list of comments holding a value that
    is not a string, it raises [AttributeError] and builds no prompt. *)
Theorem non_string_comment_fails
        set_iter py_repr (code : string) (items : list pyval) (v : pyval) :
  In v items ->
  (forall s, v <> VStr s) ->
  exists e,
    _create_empathetic_prompt set_iter py_repr (VStr code) (VList items) = Raise e
    /\ exn_cls e = AttributeError.
Proof.
  intros Hin Hstr. unfold _create_empathetic_prompt.
  rewrite language_unfold. cbn [bind py_iter].
  destruct (severities_reject items v Hin Hstr) as [e [-> He]].
  exists e. split; [reflexivity | exact He].
Qed.

Lemma non_string_comment_fails_witness :
  exists e,
    _create_empathetic_prompt one_order repr_stub (VStr "def f(): pass")
      (VList [VStr "This is bad code"; VNone; VStr "could be better"]) = Raise e
    /\ exn_cls e = AttributeError.
Proof.
  apply (non_string_comment_fails one_order repr_stub "def f(): pass"
           [VStr "This is bad code"; VNone; VStr "could be better"] VNone).
  - right. left. reflexivity.
  - intros s H. discriminate H.
Defined.

(** ** More on the request orchestrator *)

Section OrchestratorFacts.

Variable W : Type.
Variable chat_completions_create :
  Groq -> chat_request -> W -> result chat_completion * W.
Variable set_iter : list string -> list string.
Variable py_repr : pyval -> string.
Variable self : EmpathethicCodeReviewer.

Local Abbreviation review :=
  (review_code chat_completions_create set_iter py_repr self).
Local Abbreviation process_input :=
  (process_json_input chat_completions_create set_iter py_repr self).
Local Abbreviation built :=
  (_create_empathetic_prompt set_iter py_repr).
Local Abbreviation at_most_one :=
  (at_most_one_request chat_completions_create set_iter py_repr self).

Lemma review_code_effects code_snippet review_comments p :
  at_most_one p (snd (review code_snippet review_comments p)).
Proof.
  unfold at_most_one_request, review_code, review_attempt, try_except, bindM,
    record, lift, ret, create.
  cbn [world trace files stdout stderr].
  destruct (built code_snippet review_comments) as [prompt | e] eqn:Hbuilt.
  - destruct (chat_completions_create (client self) (completion_request prompt)
                (world p)) as [[response | e] w] eqn:Hcall.
    + destruct (first_choice_content response);
        cbn [snd world trace files stdout stderr];
        (do 3 (split; [reflexivity |])); right;
        exists code_snippet, review_comments, prompt;
        rewrite <- app_assoc, Hcall; repeat split; trivial.
    + cbn [snd world trace files stdout stderr].
      do 3 (split; [reflexivity |]). right.
      exists code_snippet, review_comments, prompt.
      rewrite <- app_assoc, Hcall. repeat split; trivial.
  - cbn [snd world trace files stdout stderr].
    do 3 (split; [reflexivity |]). left.
    now exists code_snippet, review_comments.
Qed.

(** X9: whatever value it is given, [process_json_input] writes no file and
    prints nothing, and it sends at most one completion request: either the
    process is left exactly as it was, or the prompt builder was called and
    then at most one request, carrying the prompt just built, went out. *)
Theorem process_json_input_effects (json_data : pyval) (p : process W) :
  snd (process_input json_data p) = p
  \/ at_most_one p (snd (process_input json_data p)).
Proof.
  unfold process_json_input, bindM, lift, raise.
  destruct (or_else (py_not_in "code_snippet" json_data)
                    (py_not_in "review_comments" json_data)) as [[|] | e];
    [left; reflexivity | | left; reflexivity].
  destruct (py_getitem json_data "code_snippet") as [code_snippet | e];
    [| left; reflexivity].
  destruct (py_getitem json_data "review_comments") as [review_comments | e];
    [| left; reflexivity].
  right. apply review_code_effects.
Qed.

(** X10: when the prompt cannot be built, no request is sent: [review_code]
    returns the error string made from the builder's exception, and the
    only change to the process is the recorded call of the builder. *)
Theorem no_request_without_prompt code_snippet review_comments p e :
  built code_snippet review_comments = Raise e ->
  review code_snippet review_comments p
  = (Return (VStr (error_prefix ++ exn_str e)),
     mk_process (world p)
       (trace p ++ [Call_create_empathetic_prompt code_snippet review_comments])
       (files p) (stdout p) (stderr p)).
Proof.
  intros Hbuilt.
  unfold review_code, review_attempt, try_except, bindM, record, lift, ret.
  now rewrite Hbuilt.
Qed.

(** X11: [review_code] hands back the content of the first choice of the
    response and nothing else: further choices are ignored, the text is
    returned unchanged, and a first choice without content gives [None].
    Exactly one request went out, with the prompt as built. *)
Theorem first_choice_returned
        code_snippet review_comments p prompt response w first others :
  built code_snippet review_comments = Return prompt ->
  chat_completions_create (client self) (completion_request prompt) (world p)
  = (Return response, w) ->
  choices response = first :: others ->
  review code_snippet review_comments p
  = (Return (match content (message first) with
             | Some text => VStr text
             | None => VNone
             end),
     mk_process w
       (trace p
        ++ [Call_create_empathetic_prompt code_snippet review_comments;
            Call_chat_completions_create (completion_request prompt)])
       (files p) (stdout p) (stderr p)).
Proof.
  intros Hbuilt Hcall Hchoices.
  unfold review_code, review_attempt, try_except, bindM, record, lift, ret,
    create, first_choice_content.
  rewrite Hbuilt. cbn [world trace files stdout stderr].
  rewrite Hcall, Hchoices, <- app_assoc. reflexivity.
Qed.

(** X12: a response without any choice is turned into an error string:
    reading [choices[0]] raises [IndexError] inside the [try] block, so
    [review_code] returns the prefixed message instead of raising. *)
Theorem empty_response_reported
        code_snippet review_comments p prompt response w :
  built code_snippet review_comments = Return prompt ->
  chat_completions_create (client self) (completion_request prompt) (world p)
  = (Return response, w) ->
  choices response = [] ->
  fst (review code_snippet review_comments p)
  = Return (VStr "Error generating empathetic review: list index out of range").
Proof.
  intros Hbuilt Hcall Hchoices.
  unfold review_code, review_attempt, try_except, bindM, record, lift, ret,
    create, first_choice_content.
  rewrite Hbuilt. cbn [world trace files stdout stderr].
  rewrite Hcall, Hchoices. reflexivity.
Qed.

(** X13: the key check is Python's [in], so a JSON array is checked by
    membership.  An array that holds the two key names as elements passes
    the check, and the subscript that follows raises [TypeError] to the
    caller, outside [review_code]'s [try]; an array lacking one of them
    gets the same [ValueError] as an object would. *)
Theorem array_request_checked_by_membership (items : list pyval) p :
  (existsb (is_str "code_snippet") items = true ->
   existsb (is_str "review_comments") items = true ->
   process_input (VList items) p
   = (Raise (mk_exn TypeError
               "list indices must be integers or slices, not str"), p))
  /\ (existsb (is_str "code_snippet") items = false
      \/ existsb (is_str "review_comments") items = false ->
      process_input (VList items) p
      = (Raise (mk_exn ValueError
                  "JSON must contain 'code_snippet' and 'review_comments' keys"),
         p)).
Proof.
  unfold process_json_input, bindM, lift, raise, or_else, py_not_in.
  cbn [py_in bind py_getitem]. split.
  - intros -> ->. reflexivity.
  - destruct (existsb (is_str "code_snippet") items); cbn [negb bind].
    + intros [H | ->]; [discriminate | reflexivity].
    + reflexivity.
Qed.

End OrchestratorFacts.

Lemma no_request_without_prompt_witness :
  review_code (stub_client "OK") one_order repr_stub a_reviewer
    (VStr "def f(): pass") (VInt 3) (fresh no_files)
  = (Return (VStr "Error generating empathetic review: 'int' object is not iterable"),
     mk_process tt
       [Call_create_empathetic_prompt (VStr "def f(): pass") (VInt 3)]
       no_files EmptyString EmptyString).
Proof.
  apply (no_request_without_prompt unit (stub_client "OK") one_order repr_stub
           a_reviewer (VStr "def f(): pass") (VInt 3) (fresh no_files)
           (mk_exn TypeError "'int' object is not iterable")).
  reflexivity.
Defined.

Lemma first_choice_returned_witness :
  fst (review_code
         (fun _ _ (w : unit) =>
            (Return (mk_chat_completion
                       [mk_choice (mk_chat_message (Some "first answer"));
                        mk_choice (mk_chat_message (Some "second answer"))]), w))
         one_order repr_stub a_reviewer
         (VStr "def f(): pass") (VList [VStr "This is bad code"])
         (fresh no_files))
  = Return (VStr "first answer").
Proof.
  refine (f_equal fst
            (first_choice_returned unit
               (fun _ _ (w : unit) =>
                  (Return (mk_chat_completion
                             [mk_choice (mk_chat_message (Some "first answer"));
                              mk_choice (mk_chat_message (Some "second answer"))]),
                   w))
               one_order repr_stub a_reviewer
               (VStr "def f(): pass") (VList [VStr "This is bad code"])
               (fresh no_files) _ _ tt
               (mk_choice (mk_chat_message (Some "first answer")))
               [mk_choice (mk_chat_message (Some "second answer"))]
               _ eq_refl eq_refl)).
  vm_compute. reflexivity.
Defined.

Lemma empty_response_reported_witness :
  fst (review_code empty_client one_order repr_stub a_reviewer
         (VStr "def f(): pass") (VList [VStr "This is bad code"])
         (fresh no_files))
  = Return (VStr "Error generating empathetic review: list index out of range").
Proof.
  refine (empty_response_reported unit empty_client one_order repr_stub
            a_reviewer (VStr "def f(): pass") (VList [VStr "This is bad code"])
            (fresh no_files) _ (mk_chat_completion []) tt _ eq_refl eq_refl).
  vm_compute. reflexivity.
Defined.

Lemma array_request_checked_by_membership_witness :
  process_json_input (stub_client "OK") one_order repr_stub a_reviewer
    (VList [VStr "code_snippet"; VStr "review_comments"]) (fresh no_files)
  = (Raise (mk_exn TypeError
              "list indices must be integers or slices, not str"),
     fresh no_files).
Proof.
  apply (proj1 (array_request_checked_by_membership unit (stub_client "OK")
                  one_order repr_stub a_reviewer
                  [VStr "code_snippet"; VStr "review_comments"]
                  (fresh no_files)));
    reflexivity.
Defined.

(** ** The constructor *)

(** X14: which credential the client gets.  A non-empty [api_key] argument
    is used and the environment is not consulted; with no argument, or an
    empty one, the value of [GROQ_API_KEY] is used instead. *)
Theorem credential_precedence
        (getenv : string -> option string) (c : ascii) (key : string) :
  __init__ getenv (Some (String c key))
  = Return (mk_reviewer (mk_Groq (String c key)))
  /\ __init__ getenv (Some EmptyString) = __init__ getenv None
  /\ (forall from_env,
         getenv "GROQ_API_KEY" = Some from_env ->
         __init__ getenv None = Return (mk_reviewer (mk_Groq from_env))).
Proof.
  unfold __init__, str_or. repeat split.
  intros from_env ->. reflexivity.
Qed.

Lemma credential_precedence_witness :
  __init__ (fun name => if String.eqb name "GROQ_API_KEY"
                        then Some "from-env" else None) None
  = Return (mk_reviewer (mk_Groq "from-env")).
Proof.
  apply (proj2 (proj2 (credential_precedence
                         (fun name => if String.eqb name "GROQ_API_KEY"
                                      then Some "from-env" else None)
                         "k" "ey"))).
  reflexivity.
Defined.

(** ** More on the command line *)

Section MainFacts.

Variable W : Type.
Variable chat_completions_create :
  Groq -> chat_request -> W -> result chat_completion * W.
Variable set_iter : list string -> list string.
Variable py_repr : pyval -> string.
Variable json_loads : string -> pyval + exn.
Variable getenv : string -> option string.
Variable otherwise : string -> no_text.
Variable open_for_writing : string -> option exn.

Local Abbreviation run :=
  (main chat_completions_create set_iter py_repr json_loads getenv
        otherwise open_for_writing).
Local Abbreviation process_with key :=
  (process_json_input chat_completions_create set_iter py_repr
     (mk_reviewer (mk_Groq key))).

(** Once the file is read and parsed and the client is built, [main] is
    left with processing the request and putting out the result. *)
Lemma main_body_after_setup (a : args) (p : process W) text input_data key :
  files p (input_file a) = Some text ->
  json_loads text = inl input_data ->
  getenv "GROQ_API_KEY" = Some key ->
  main_body chat_completions_create set_iter py_repr json_loads getenv
            otherwise open_for_writing a p
  = bindM (process_with key input_data)
      (fun result =>
         match output a with
         | Some (String c rest) =>
             bindM (write_file W open_for_writing (String c rest) result)
               (fun _ => print W ("Empathetic review written to " ++ String c rest))
         | _ => print W (py_str py_repr result)
         end) p.
Proof.
  intros Hfile Hjson Henv.
  unfold main_body, read_file, json_load, __init__, str_or, lift.
  unfold bindM at 1. rewrite Hfile.
  unfold bindM at 1. rewrite Hjson.
  unfold bindM at 1. rewrite Henv. reflexivity.
Qed.

(** X15: a request object without one of the two keys is reported by
    [main] through its last handler: the message of the [ValueError] goes
    to standard error after [Error: ], the exit status is 1, and nothing
    else happens. *)
Theorem main_reports_missing_keys (a : args) (p : process W) text items key :
  files p (input_file a) = Some text ->
  json_loads text = inl (VDict items) ->
  getenv "GROQ_API_KEY" = Some key ->
  has_key "code_snippet" items = false
  \/ has_key "review_comments" items = false ->
  run a p
  = (1%Z,
     mk_process (world p) (trace p) (files p) (stdout p)
       (stderr p
        ++ "Error: JSON must contain 'code_snippet' and 'review_comments' keys"
        ++ nl)).
Proof.
  intros Hfile Hjson Henv Hmissing. unfold main.
  rewrite (main_body_after_setup a p text _ key Hfile Hjson Henv).
  unfold bindM. rewrite (process_json_input_absent _ _ _ _ _ _ p Hmissing).
  reflexivity.
Qed.

(** X16: the client is built before the request is looked at.  Without
    [GROQ_API_KEY] in the environment [main] stops at the constructor,
    whatever the input file holds once it parses: status 1, the
    constructor's message on standard error, no request sent. *)
Theorem main_needs_credential (a : args) (p : process W) text input_data :
  files p (input_file a) = Some text ->
  json_loads text = inl input_data ->
  getenv "GROQ_API_KEY" = None ->
  run a p
  = (1%Z,
     mk_process (world p) (trace p) (files p) (stdout p)
       (stderr p
        ++ "Error: The api_key client option must be set either by passing api_key to the client or by setting the GROQ_API_KEY environment variable"
        ++ nl)).
Proof.
  intros Hfile Hjson Henv.
  unfold main, main_body, read_file, json_load, __init__, str_or, lift, bindM.
  rewrite Hfile, Hjson, Henv. reflexivity.
Qed.




(** X20: with an output path that can be opened and a response whose first
    choice has no content, the result is [None]: the output file has been
    opened, and so emptied, before [write] refuses the value; [main]
    reports the [TypeError], exits with status 1 and prints no
    confirmation. *)
Theorem main_empties_file_on_missing_content
        (a : args) (p p' : process W) text input_data key c rest :
  files p (input_file a) = Some text ->
  json_loads text = inl input_data ->
  getenv "GROQ_API_KEY" = Some key ->
  process_with key input_data p = (Return VNone, p') ->
  output a = Some (String c rest) ->
  open_for_writing (String c rest) = None ->
  let final := snd (run a p) in
  fst (run a p) = 1%Z
  /\ files final (String c rest) = Some EmptyString
  /\ stdout final = stdout p'
  /\ stderr final
     = stderr p' ++ "Error: write() argument must be str, not None" ++ nl.
Proof.
  intros Hfile Hjson Henv Hresult Hout Hopen final. subst final. unfold main.
  rewrite (main_body_after_setup a p text _ key Hfile Hjson Henv).
  unfold bindM. rewrite Hresult, Hout.
  unfold write_file. rewrite Hopen.
  unfold bindM, set_file, raise, print_err.
  cbn [fst snd files stdout stderr world trace exn_cls].
  now rewrite String.eqb_refl.
Qed.

End MainFacts.

Lemma main_reports_missing_keys_witness :
  main (stub_client "OK") one_order repr_stub
       (parsed_as (VDict [("code_snippet", VStr "def f(): pass")]))
       env_with_key nothing_else all_writable (mk_args "in.json" None)
       (fresh (one_file "in.json" "{}"))
  = (1%Z,
     mk_process tt [] (one_file "in.json" "{}") EmptyString
       ("Error: JSON must contain 'code_snippet' and 'review_comments' keys"
        ++ nl)).
Proof.
  apply (main_reports_missing_keys unit (stub_client "OK") one_order repr_stub
           (parsed_as (VDict [("code_snippet", VStr "def f(): pass")]))
           env_with_key nothing_else all_writable (mk_args "in.json" None)
           (fresh (one_file "in.json" "{}"))
           "{}" [("code_snippet", VStr "def f(): pass")] "key");
    try reflexivity.
  right. reflexivity.
Defined.

Lemma main_needs_credential_witness :
  fst (main (stub_client "OK") one_order repr_stub (parsed_as a_request)
            no_env nothing_else all_writable (mk_args "in.json" None)
            (fresh (one_file "in.json" "{}")))
  = 1%Z.
Proof.
  refine (f_equal fst
            (main_needs_credential unit (stub_client "OK") one_order repr_stub
               (parsed_as a_request) no_env nothing_else all_writable (mk_args "in.json" None)
               (fresh (one_file "in.json" "{}")) "{}" a_request
               eq_refl eq_refl eq_refl)).
Defined.




Lemma main_empties_file_on_missing_content_witness :
  let outcome :=
    main silent_client one_order repr_stub (parsed_as a_request)
         env_with_key nothing_else all_writable (mk_args "in.json" (Some "out.md"))
         (fresh (fun path => if String.eqb path "out.md"
                             then Some "an earlier review"
                             else one_file "in.json" "{}" path)) in
  fst outcome = 1%Z /\ files (snd outcome) "out.md" = Some EmptyString.
Proof.
  refine (let H :=
            main_empties_file_on_missing_content unit silent_client one_order
              repr_stub (parsed_as a_request) env_with_key nothing_else all_writable
              (mk_args "in.json" (Some "out.md"))
              (fresh (fun path => if String.eqb path "out.md"
                                  then Some "an earlier review"
                                  else one_file "in.json" "{}" path))
              (snd (process_json_input silent_client one_order repr_stub
                      a_reviewer a_request
                      (fresh (fun path => if String.eqb path "out.md"
                                          then Some "an earlier review"
                                          else one_file "in.json" "{}" path))))
              "{}" a_request "key" "o" "ut.md"
              eq_refl eq_refl eq_refl _ eq_refl eq_refl
          in conj (proj1 H) (proj1 (proj2 H))).
  vm_compute. reflexivity.
Defined.
